(** * Noggin: the authenticated-session request-handling contract

    A shallow embedding of [noggin/utility/__init__.py] (the [with_ipa] and
    [require_self] gates, [user_or_404]) and of [noggin/controller/user.py]
    (the user view and the four settings handlers), together with the
    properties the specification states about them.

    The handlers are effectful Python: they read and write the Flask
    session, flash notifications, write to the application log, and call
    the FreeIPA client.  They are embedded in a state-and-exception monad
    [Flask] over a [World] that records all of these, including the trace
    of backend calls in the order they were issued. *)

From Stdlib Require Import Ascii String.
From stdpp Require Import base strings list gmap.

(** ** Python values *)

Module Py.

(** A value read from the session or posted in a form: [None] or a [str]. *)
Inductive pyval : Type :=
  | PNone
  | PStr (s : string).

Global Instance pyval_eq_dec : EqDecision pyval.
Proof. solve_decision. Defined.

(** An argument of a backend call: a scalar or a list of scalars. *)
Inductive pyobj : Type :=
  | OVal (v : pyval)
  | OList (l : list pyval).

Global Instance pyobj_eq_dec : EqDecision pyobj.
Proof. solve_decision. Defined.

(** [str(v)], as used by f-strings and [%s]. *)
Definition str (v : pyval) : string :=
  match v with
  | PNone => "None"
  | PStr s => s
  end.

(** [c in chars] for a character and a string of characters. *)
Fixpoint char_in (c : ascii) (chars : string) : bool :=
  match chars with
  | EmptyString => false
  | String d rest => if decide (c = d) then true else char_in c rest
  end.

(** [s.lstrip(chars)]: drop the longest prefix of [s] made of characters
    that occur in [chars]. *)
Fixpoint lstrip (chars : string) (s : string) : string :=
  match s with
  | EmptyString => EmptyString
  | String c rest => if char_in c chars then lstrip chars rest else s
  end.

(** ['%s %s' % (a, b)] on two strings. *)
Definition fmt_s_s (a b : string) : string := a +:+ " " +:+ b.

(** [n] copies of the character [c]. *)
Fixpoint repeat_char (c : ascii) (n : nat) : string :=
  match n with
  | O => EmptyString
  | S k => String c (repeat_char c k)
  end.

(** [needle in hay] on strings, as a proposition. *)
Definition contains (needle hay : string) : Prop :=
  ∃ pre post, hay = pre +:+ needle +:+ post.

(** A [dict] with string keys, in insertion order. *)
Definition dict (V : Type) : Type := list (string * V).

Fixpoint dict_get {V} (k : string) (d : dict V) : option V :=
  match d with
  | [] => None
  | (k', v) :: rest => if decide (k = k') then Some v else dict_get k rest
  end.

(** [d[k] = v]: overwrite in place when the key exists, append otherwise. *)
Fixpoint dict_set {V} (k : string) (v : V) (d : dict V) : dict V :=
  match d with
  | [] => [(k, v)]
  | (k', v') :: rest =>
      if decide (k = k') then (k', v) :: rest else (k', v') :: dict_set k v rest
  end.

(** [d.values()]. *)
Definition dict_values {V} (d : dict V) : list V := d.*2.

(** Truth value of a dict or list: non-empty. *)
Definition nonempty {A} (l : list A) : bool :=
  match l with [] => false | _ :: _ => true end.

End Py.
Import Py.

(** ** Data model *)

(** Modelled from the spec: [noggin.representation.user.User], the read-oriented
    projection of a backend identity record (name, key lists).  Of its
    properties the handlers read only [gpgkeys]. *)
Record User : Type := mkUser {
  username : string;
  sshpubkeys : list string;
  gpgkeys : list string;
}.

(** Modelled from the spec: [noggin.representation.group.Group], the projection
    of a backend group record. *)
Record Group : Type := mkGroup { group_name : string }.

(** Modelled from the spec: [noggin.representation.otptoken.OTPToken], the
    projection of a backend token record, keyed by its unique identifier. *)
Record OTPToken : Type := mkOTPToken {
  uniqueid : string;
  token_description : string;
}.

(** Exception classes of [python_freeipa.exceptions] the code names, and the
    two builtin ones that indexing a response can raise. *)
Inductive ExcClass : Type :=
  | FreeIPAError
  | BadRequest
  | NotFound
  | Unauthorized
  | KeyError
  | IndexError.

Global Instance ExcClass_eq_dec : EqDecision ExcClass.
Proof. solve_decision. Defined.

(** [issubclass c d]: [NotFound] and [Unauthorized] derive from
    [BadRequest], which derives from [FreeIPAError]; the builtins stand
    apart. *)
Definition issubclass (c d : ExcClass) : bool :=
  match c, d with
  | FreeIPAError, FreeIPAError => true
  | BadRequest, (BadRequest | FreeIPAError) => true
  | NotFound, (NotFound | BadRequest | FreeIPAError) => true
  | Unauthorized, (Unauthorized | BadRequest | FreeIPAError) => true
  | KeyError, KeyError => true
  | IndexError, IndexError => true
  | _, _ => false
  end.

(** What leaves a handler other than a response: [abort(code)] or an
    exception that nothing caught. *)
Inductive Exn : Type :=
  | HTTPException (code : nat)
  | PyExc (cls : ExcClass) (message : string).

(** What a backend method does when called: return a value or raise. *)
Inductive Result (A : Type) : Type :=
  | Returns (a : A)
  | Raises (cls : ExcClass) (message : string).
Global Arguments Returns {A} a.
Global Arguments Raises {A} cls message.

(** The authenticated FreeIPA client, one field per method the handlers
    call, each giving the backend's answer for its arguments. *)
Record Client : Type := mkClient {
  user_find : Result (list User);                       (* whoami=True *)
  user_show : string → Result User;                     (* a_uid *)
  user_mod : string → dict pyobj → Result unit;         (* uid, **details *)
  group_find : string → string → Result (list Group);   (* filter keyword, user *)
  otptoken_find : string → Result (list OTPToken);      (* ipatokenowner *)
  otptoken_add : pyval → string → string → Result (dict pyval);
}.

(** The backend calls a request issued. *)
Inductive Call : Type :=
  | call_user_find
  | call_user_show (uid : string)
  | call_user_mod (uid : string) (details : dict pyobj)
  | call_group_find (kw : string) (uid : string)
  | call_otptoken_find (owner : string)
  | call_otptoken_add (owner : pyval) (algorithm : string) (description : string).

(** The calls that change backend state. *)
Definition is_mutation (c : Call) : bool :=
  match c with
  | call_user_mod _ _ | call_otptoken_add _ _ _ => true
  | _ => false
  end.

Definition is_user_mod (c : Call) : bool :=
  match c with call_user_mod _ _ => true | _ => false end.

Definition is_user_find (c : Call) : bool :=
  match c with call_user_find => true | _ => false end.

Inductive Method : Type := GET | POST.

Global Instance Method_eq_dec : EqDecision Method.
Proof. solve_decision. Defined.

(** The ambient [request]: its method and the posted fields. *)
Record Request : Type := mkRequest {
  method : Method;
  formdata : dict string;
}.

(** Targets of [url_for]. *)
Inductive Url : Type :=
  | url_root
  | url_user (username : pyval)
  | url_user_settings_otp (username : pyval).

(** A form object: the bound field data, the errors its validators find on
    that data, and the mutable [errors] dict. *)
Record Form (D : Type) : Type := mkForm {
  data : D;
  validators : dict (list string);
  errors : dict (list string);
}.
Global Arguments mkForm {D} data validators errors.
Global Arguments data {D} f.
Global Arguments validators {D} f.
Global Arguments errors {D} f.

Record ProfileData : Type := mkProfileData {
  firstname : string;
  lastname : string;
  mail : string;
  ircnick : string;
  locale : string;
  timezone : string;
  github : string;
  gitlab : string;
  rhbz_mail : string;
}.

(** The two field lists of the keys form; an entry without data holds [None]. *)
Record KeysData : Type := mkKeysData {
  sshpubkeys_entries : list pyval;
  gpgkeys_entries : list pyval;
}.

Record OTPData : Type := mkOTPData { description : string }.

(** [fieldlist.append_entry()]: one more entry, without data. *)
Definition append_entry (entries : list pyval) : list pyval := entries ++ [PNone].

Definition append_gpgkeys (f : Form KeysData) : Form KeysData :=
  mkForm (mkKeysData (sshpubkeys_entries (data f)) (append_entry (gpgkeys_entries (data f))))
         (validators f) (errors f).

Definition append_sshpubkeys (f : Form KeysData) : Form KeysData :=
  mkForm (mkKeysData (append_entry (sshpubkeys_entries (data f))) (gpgkeys_entries (data f)))
         (validators f) (errors f).

(** [form.errors[k] = v]. *)
Definition set_error {D} (k : string) (v : list string) (f : Form D) : Form D :=
  mkForm (data f) (validators f) (dict_set k v (errors f)).

(** The context handed to [render_template], by template. *)
Inductive Page : Type :=
  | page_user (user : User) (groups managed_groups : list Group)
  | page_settings_profile (user : User) (form : Form ProfileData) (select : string)
  | page_settings_keys (user : User) (form : Form KeysData) (select : string)
  | page_settings_otp (addotpform : Form OTPData) (user : User) (select : string)
      (tokens : list OTPToken) (otp_uri : pyval).

Inductive Response : Type :=
  | redirect (location : Url)
  | render_template (template : string) (context : Page).

Inductive LogLevel : Type := ERROR.

(** ** The world a request runs in *)

(** Flask keeps the flashed messages in the session itself, under the key
    [_flashes]; here they have a field of their own, [flashes], and [session]
    is the session apart from that key. *)
Record World : Type := mkWorld {
  request : Request;
  session : gmap string pyval;
  g_ipa : option Client;
  g_current_user : option User;
  flashes : list (string * string);      (* message, category; oldest first *)
  logged : list (LogLevel * string);     (* oldest first *)
  calls : list Call;                     (* oldest first *)
  validations : nat;                     (* runs of [form.validate()] *)
}.

Inductive Outcome (A : Type) : Type :=
  | Done (a : A)
  | Raised (e : Exn).
Global Arguments Done {A} a.
Global Arguments Raised {A} e.

Definition Flask (A : Type) : Type := World → Outcome A * World.

Global Instance Flask_ret : MRet Flask := λ A a w, (Done a, w).

Global Instance Flask_bind : MBind Flask := λ A B f m w,
  match m w with
  | (Done a, w') => f a w'
  | (Raised e, w') => (Raised e, w')
  end.

Global Instance Flask_throw : MThrow Exn Flask := λ A e w, (Raised e, w).

Definition gets {A} (proj : World → A) : Flask A := λ w, (Done (proj w), w).
Definition modify (upd : World → World) : Flask unit := λ w, (Done tt, upd w).

(** The world after each elementary effect. *)
Definition put_session (key : string) (v : pyval) (w : World) : World :=
  mkWorld (request w) (<[key := v]> (session w)) (g_ipa w) (g_current_user w)
          (flashes w) (logged w) (calls w) (validations w).

Definition put_g_ipa (ipa : Client) (w : World) : World :=
  mkWorld (request w) (session w) (Some ipa) (g_current_user w)
          (flashes w) (logged w) (calls w) (validations w).

Definition put_g_current_user (user : User) (w : World) : World :=
  mkWorld (request w) (session w) (g_ipa w) (Some user)
          (flashes w) (logged w) (calls w) (validations w).

Definition add_flashes (fs : list (string * string)) (w : World) : World :=
  mkWorld (request w) (session w) (g_ipa w) (g_current_user w)
          (flashes w ++ fs) (logged w) (calls w) (validations w).

Definition add_flash (message category : string) : World → World :=
  add_flashes [(message, category)].

Definition add_log (level : LogLevel) (message : string) (w : World) : World :=
  mkWorld (request w) (session w) (g_ipa w) (g_current_user w)
          (flashes w) (logged w ++ [(level, message)]) (calls w) (validations w).

Definition add_call (c : Call) (w : World) : World :=
  mkWorld (request w) (session w) (g_ipa w) (g_current_user w)
          (flashes w) (logged w) (calls w ++ [c]) (validations w).

Definition add_validation (w : World) : World :=
  mkWorld (request w) (session w) (g_ipa w) (g_current_user w)
          (flashes w) (logged w) (calls w) (S (validations w)).

(** [session.get(key)]. *)
Definition session_get (key : string) : Flask pyval :=
  gets (λ w, default PNone (session w !! key)).

(** [session[key] = v]. *)
Definition session_set (key : string) (v : pyval) : Flask unit :=
  modify (put_session key v).

(** [g.ipa = ipa]. *)
Definition set_g_ipa (ipa : Client) : Flask unit := modify (put_g_ipa ipa).

(** [g.current_user = user]. *)
Definition set_g_current_user (user : User) : Flask unit :=
  modify (put_g_current_user user).

(** [flash(message, category)]: one more entry of [session['_flashes']], kept
    in [flashes]. *)
Definition flash (message category : string) : Flask unit :=
  modify (add_flash message category).

(** [app.logger.error(message)]. *)
Definition logger_error (message : string) : Flask unit :=
  modify (add_log ERROR message).

Definition record_call (c : Call) : Flask unit := modify (add_call c).

Definition count_validation : Flask unit := modify add_validation.

(** Calling a backend method: the call is issued, then its answer returned
    or raised. *)
Definition backend {A} (c : Call) (answer : Result A) : Flask A :=
  record_call c;;
  match answer with
  | Returns a => mret a
  | Raises cls message => mthrow (PyExc cls message)
  end.

(** [abort(code)]. *)
Definition abort {A} (code : nat) : Flask A := mthrow (HTTPException code).

(** [try: body / except cls as e: ...]: the body's value, or the message of
    the exception of class [cls] it raised; anything else propagates. *)
Definition try_except {A} (cls : ExcClass) (body : Flask A) : Flask (A + string) :=
  λ w,
    match body w with
    | (Done a, w') => (Done (inl a), w')
    | (Raised (PyExc c message), w') =>
        if issubclass c cls then (Done (inr message), w')
        else (Raised (PyExc c message), w')
    | (Raised e, w') => (Raised e, w')
    end.

(** [for x in xs: body(x)]. *)
Fixpoint for_each {A} (xs : list A) (body : A → Flask unit) : Flask unit :=
  match xs with
  | [] => mret tt
  | x :: rest => body x;; for_each rest body
  end.

(** [flask_wtf]'s [form.validate_on_submit()]: [is_submitted() and validate()].
    Validation runs only on a submitted form, fills [form.errors] with what
    the validators found, and succeeds when they found nothing. *)
Definition validate_on_submit {D} (form : Form D) : Flask (bool * Form D) :=
  req ← gets request;
  match method req with
  | GET => mret (false, form)
  | POST =>
      count_validation;;
      mret (negb (nonempty (validators form)),
            mkForm (data form) (validators form) (validators form))
  end.

(** What a form class makes of the request (and of the object it is
    pre-filled from): the bound field data and the errors its validators
    would report on it. *)
Record Bound (D : Type) : Type := mkBound {
  bound_data : D;
  bound_errors : dict (list string);
}.
Global Arguments mkBound {D} bound_data bound_errors.
Global Arguments bound_data {D} b.
Global Arguments bound_errors {D} b.

(** A freshly constructed form: nothing validated yet, [errors] empty. *)
Definition instantiate {D} (b : Bound D) : Form D :=
  mkForm (bound_data b) (bound_errors b) [].

(** [d[key]] on a response, raising [KeyError] when the key is missing. *)
Definition getitem (d : dict pyval) (key : string) : Flask pyval :=
  match dict_get key d with
  | Some v => mret v
  | None => mthrow (PyExc KeyError key)
  end.

(** The calls a run added to the trace. *)
Definition issued (before after : World) : list Call :=
  drop (length (calls before)) (calls after).

(** The notifications a run flashed. *)
Definition flashed (before after : World) : list (string * string) :=
  drop (length (flashes before)) (flashes after).

(** The log entries a run wrote. *)
Definition written (before after : World) : list (LogLevel * string) :=
  drop (length (logged before)) (logged after).

(** ** A concrete deployment, for running the handlers *)

Module Demo.

Definition dummy : User := mkUser "dummy" [] ["dummygpgkeyid"].
Definition nokeys : User := mkUser "dummy" [] [].

(** A backend that knows [who] and answers every mutation with [modr] and
    [addr]. *)
Definition client (who : User) (modr : Result unit) (addr : Result (dict pyval))
  : Client :=
  mkClient (Returns [who])
           (λ uid, if decide (uid = username who) then Returns who
                   else Raises NotFound (uid +:+ ": user not found"))
           (λ _ _, modr)
           (λ _ _, Returns [])
           (λ _, Returns [])
           (λ _ _ _, addr).

Definition happy : Client :=
  client dummy (Returns tt) (Returns [("uri", PStr "otpauth://totp/dummy")]).

(** A backend that turns every mutation down with [BadRequest]. *)
Definition refusing (message : string) : Client :=
  client dummy (Raises BadRequest message) (Raises BadRequest message).

(** A backend whose only user has no GPG key. *)
Definition keyless : Client :=
  client nokeys (Returns tt) (Returns [("uri", PStr "otpauth://totp/dummy")]).

(** A backend whose caller lookup comes back empty. *)
Definition nobody : Client :=
  mkClient (Returns []) (user_show happy) (user_mod happy) (group_find happy)
           (otptoken_find happy) (otptoken_add happy).

(** A backend that cannot list tokens. *)
Definition tokenless (message : string) : Client :=
  mkClient (user_find happy) (user_show happy) (user_mod happy) (group_find happy)
           (λ _, Raises FreeIPAError message) (otptoken_add happy).

(** A backend whose answer to [otptoken_add] carries no [uri]. *)
Definition mute : Client := client dummy (Returns tt) (Returns []).

(** A backend whose mutations fail with a bare [FreeIPAError]. *)
Definition failing (message : string) : Client :=
  client dummy (Raises FreeIPAError message) (Raises FreeIPAError message).

(** A backend with one group and one managed group for every user. *)
Definition grouped : Client :=
  mkClient (user_find happy) (user_show happy) (user_mod happy)
           (λ kw _, if decide (kw = "membermanager_user")
                    then Returns [mkGroup "dummy-managers"]
                    else Returns [mkGroup "dummy-group"; mkGroup "other-group"])
           (otptoken_find happy) (otptoken_add happy).

(** A session is authenticated when it carries [noggin_session]. *)
Definition maybe_ipa_session (ipa : Client) (s : gmap string pyval) : option Client :=
  match s !! "noggin_session" with
  | Some (PStr _) => Some ipa
  | _ => None
  end.

Definition field (req : Request) (name : string) : string :=
  default "" (dict_get name (formdata req)).

(** Required fields: a missing value is a validation error. *)
Definition required (req : Request) (names : list string) : dict (list string) :=
  omap (λ name, if decide (field req name = "") then
                  Some (name, ["This field is required."]) else None) names.

Definition ProfileForm (req : Request) (u : User) : Bound ProfileData :=
  mkBound (mkProfileData (field req "firstname") (field req "lastname")
             (field req "mail") (field req "ircnick") (field req "locale")
             (field req "timezone") (field req "github") (field req "gitlab")
             (field req "rhbz_mail"))
          (required req ["firstname"; "lastname"; "mail"]).

Definition KeysForm (req : Request) (u : User) : Bound KeysData :=
  match method req with
  | GET => mkBound (mkKeysData (PStr <$> sshpubkeys u) (PStr <$> gpgkeys u)) []
  | POST => mkBound (mkKeysData [PStr (field req "sshpubkeys-0")]
                                [PStr (field req "gpgkeys-0")])
                    (required req ["gpgkeys-0"])
  end.

Definition AddOTPForm (req : Request) : Bound OTPData :=
  mkBound (mkOTPData (field req "description")) (required req ["description"]).

Definition logged_in (name : string) : gmap string pyval :=
  <["noggin_username" := PStr name]> (<["noggin_session" := PStr "cookie"]> ∅).

Definition world (req : Request) (s : gmap string pyval) : World :=
  mkWorld req s None None [] [] [] 0.

Definition post (fields : dict string) : Request := mkRequest POST fields.
Definition get : Request := mkRequest GET [].

Definition profile_post : Request :=
  post [("firstname", "Dummy"); ("lastname", "User"); ("mail", "dummy@example.com");
        ("github", "@octocat"); ("gitlab", "octocat")].

End Demo.

(** Expose the state transformers behind the monadic operations. *)
Ltac flask :=
  repeat progress
    unfold session_get, session_set, set_g_ipa, set_g_current_user,
      logger_error, backend, record_call, count_validation, abort, gets,
      modify, getitem, mbind, Flask_bind, mret, Flask_ret, mthrow,
      Flask_throw in *.

(** ** The gates and the handlers *)

Section Noggin.

(** [noggin.security.ipa.maybe_ipa_session] and the form classes of
    [noggin.form.edit_user] are collaborators the handlers are written
    against: the first gives the backend handle a session yields, if any;
    each form class gives the data it binds from the request (and from the
    user it is pre-filled from) with the errors its validators report. *)
Variable maybe_ipa_session : gmap string pyval → option Client.
Variable UserSettingsProfileForm : Request → User → Bound ProfileData.
Variable UserSettingsKeysForm : Request → User → Bound KeysData.
Variable UserSettingsAddOTPForm : Request → Bound OTPData.

(** [noggin/utility/__init__.py] *)

Definition with_ipa {K} (f : Client → K → Flask Response) (kwargs : K)
  : Flask Response :=
  s ← gets session;
  match maybe_ipa_session s with
  | Some ipa =>
      set_g_ipa ipa;;
      result ← backend call_user_find (user_find ipa);
      match result with
      | first :: _ =>
          set_g_current_user first;;
          f ipa kwargs
      | [] => mthrow (PyExc IndexError "list index out of range")
      end
  | None =>
      flash "Please log in to continue." "warning";;
      mret (redirect url_root)
  end.

Definition require_self (f : gmap string string → Flask Response)
    (kwargs : gmap string string) : Flask Response :=
  match kwargs !! "username" with
  | None => abort 500
  | Some username =>
      me ← session_get "noggin_username";
      if decide (me ≠ PStr username) then
        flash "You do not have permission to edit this account." "danger";;
        mret (redirect (url_user (PStr username)))
      else f kwargs
  end.

Definition user_or_404 (ipa : Client) (username : string) : Flask User :=
  r ← try_except NotFound
        (backend (call_user_show username) (user_show ipa username));
  match r with
  | inl result => mret result
  | inr _ => abort 404
  end.

(** [group_find(o_cn=groupname, fasgroup=True)], the filter keyword standing
    for the query as it does for the two queries of [user]. *)
Definition group_or_404 (ipa : Client) (groupname : string) : Flask Group :=
  group ← backend (call_group_find "o_cn" groupname)
                  (group_find ipa "o_cn" groupname);
  match group with
  | [] => abort 404
  | first :: _ => mret first
  end.

(** [noggin/controller/user.py] *)

Definition user (ipa : Client) (username : string) : Flask Response :=
  user ← user_or_404 ipa username;
  groups ← backend (call_group_find "user" username)
                   (group_find ipa "user" username);
  managed_groups ← backend (call_group_find "membermanager_user" username)
                           (group_find ipa "membermanager_user" username);
  mret (render_template "user.html" (page_user user groups managed_groups)).

Definition _user_mod {D} (ipa : Client) (form : Form D) (username : string)
    (details : dict pyobj) : Flask (option Response * Form D) :=
  r ← try_except BadRequest
        (backend (call_user_mod username details) (user_mod ipa username details));
  match r with
  | inr message =>
      if decide (message = "no modifications to be performed") then
        mret (None, set_error "non_field_errors" [message] form)
      else
        logger_error ("An error happened while editing user " +:+ username
                      +:+ ": " +:+ message);;
        mret (None, set_error "non_field_errors" [message] form)
  | inl _ =>
      flash "Profile has been succesfully updated." "success";;
      mret (Some (redirect (url_user (PStr username))), form)
  end.

Definition profile_details (d : ProfileData) : dict pyobj :=
  [ ("first_name", OVal (PStr (firstname d)));
    ("last_name", OVal (PStr (lastname d)));
    ("full_name", OVal (PStr (fmt_s_s (firstname d) (lastname d))));
    ("display_name", OVal (PStr (fmt_s_s (firstname d) (lastname d))));
    ("mail", OVal (PStr (mail d)));
    ("fasircnick", OVal (PStr (ircnick d)));
    ("faslocale", OVal (PStr (locale d)));
    ("fastimezone", OVal (PStr (timezone d)));
    ("fasgithubusername", OVal (PStr (lstrip "@" (github d))));
    ("fasgitlabusername", OVal (PStr (lstrip "@" (gitlab d))));
    ("fasrhbzemail", OVal (PStr (rhbz_mail d))) ].

Definition user_settings_profile (ipa : Client) (username : string)
  : Flask Response :=
  me ← session_get "noggin_username";
  if decide (me ≠ PStr username) then
    flash "You do not have permission to edit this account." "danger";;
    mret (redirect (url_user (PStr username)))
  else
    user ← user_or_404 ipa username;
    req ← gets request;
    let form := instantiate (UserSettingsProfileForm req user) in
    '(valid, form) ← validate_on_submit form;
    '(result, form) ←
      (if valid : bool
       then _user_mod ipa form username (profile_details (data form))
       else mret (None, form));
    match result with
    | Some response => mret response
    | None =>
        mret (render_template "user-settings-profile.html"
                (page_settings_profile user form "profile"))
    end.

Definition keys_details (d : KeysData) : dict pyobj :=
  [ ("ipasshpubkey", OList (sshpubkeys_entries d));
    ("fasgpgkeyid", OList (gpgkeys_entries d)) ].

Definition user_settings_keys (ipa : Client) (username : string)
  : Flask Response :=
  me ← session_get "noggin_username";
  if decide (me ≠ PStr username) then
    flash "You do not have permission to edit this account." "danger";;
    mret (redirect (url_user (PStr username)))
  else
    user ← user_or_404 ipa username;
    req ← gets request;
    let form := instantiate (UserSettingsKeysForm req user) in
    '(valid, form) ← validate_on_submit form;
    '(result, form) ←
      (if valid : bool
       then _user_mod ipa form username (keys_details (data form))
       else mret (None, form));
    match result with
    | Some response => mret response
    | None =>
        let form :=
          if nonempty (errors form) then form
          else Nat.iter 2 (λ form, append_sshpubkeys (append_gpgkeys form)) form in
        mret (render_template "user-settings-keys.html"
                (page_settings_keys user form "keys"))
    end.

Definition user_settings_otp (ipa : Client) (username : string)
  : Flask Response :=
  me ← session_get "noggin_username";
  if decide (me ≠ PStr username) then
    flash "You do not have permission to edit this account." "danger";;
    mret (redirect (url_user (PStr username)))
  else
    req ← gets request;
    let addotpform := instantiate (UserSettingsAddOTPForm req) in
    user ← user_or_404 ipa username;
    otp_uri ← session_get "otp_uri";
    session_set "otp_uri" PNone;;
    tokens ← backend (call_otptoken_find username) (otptoken_find ipa username);
    mret (render_template "user-settings-otp.html"
            (page_settings_otp addotpform user "otp" tokens otp_uri)).

Definition user_settings_otp_add (ipa : Client) (username : string)
  : Flask Response :=
  me ← session_get "noggin_username";
  if decide (me ≠ PStr username) then
    flash "You do not have permission to edit this account." "danger";;
    mret (redirect (url_user (PStr username)))
  else
    req ← gets request;
    let form := instantiate (UserSettingsAddOTPForm req) in
    user ← user_or_404 ipa username;
    if negb (nonempty (gpgkeys user)) then
      flash "Cannot create an OTP token without a GPG Key. Please add a GPG Key" "info";;
      mret (redirect (url_user_settings_otp (PStr username)))
    else
      '(valid, form) ← validate_on_submit form;
      username ←
        (if valid : bool then
           username ← session_get "noggin_username";
           let description := description (data form) in
           r ← try_except FreeIPAError
                 (result ← backend (call_otptoken_add username "sha512" description)
                                   (otptoken_add ipa username "sha512" description);
                  uri ← getitem result "uri";
                  session_set "otp_uri" uri);
           match r with
           | inl _ => mret tt
           | inr message =>
               flash "Cannot create the token." "danger";;
               logger_error ("An error happened while creating an OTP token for user "
                             +:+ Py.str username +:+ ": " +:+ message)
           end;;
           mret username
         else mret (PStr username));
      for_each (dict_values (errors form))
        (λ field_errors, for_each field_errors (λ error, flash error "danger"));;
      mret (redirect (url_user_settings_otp username)).

(** The handlers of [user.py] by name; all but [view_user] are settings
    handlers. *)
Inductive Route : Type :=
  | view_user
  | settings_profile
  | settings_keys
  | settings_otp
  | settings_otp_add.

Definition handler (r : Route) : Client → string → Flask Response :=
  match r with
  | view_user => user
  | settings_profile => user_settings_profile
  | settings_keys => user_settings_keys
  | settings_otp => user_settings_otp
  | settings_otp_add => user_settings_otp_add
  end.

Definition is_settings (r : Route) : bool :=
  match r with view_user => false | _ => true end.

(** A request to a route: the handler behind [with_ipa].  [user.py] writes
    the decorator as [with_ipa(app, session)]; its body, embedded above,
    reads the ambient application and session whatever it is given. *)
Definition serve (r : Route) : string → Flask Response := with_ipa (handler r).

(** * Properties *)

(** ** Strings and dicts *)

Lemma append_cons c s t : String c s +:+ t = String c (s +:+ t).
Proof. reflexivity. Qed.

Lemma append_assoc s t r : (s +:+ t) +:+ r = s +:+ t +:+ r.
Proof. induction s as [|c s IH]; [done|]. by rewrite !append_cons, IH. Qed.

Lemma lstrip_idempotent chars s : lstrip chars (lstrip chars s) = lstrip chars s.
Proof.
induction s as [|c rest IH]; simpl; [done|].
destruct (char_in c chars) eqn:Hc; [done|].
simpl. by rewrite Hc.
Qed.

Lemma lstrip_at_head s : lstrip "@" (String "@" s) = lstrip "@" s.
Proof. reflexivity. Qed.

Lemma lstrip_at_other c s : c ≠ "@"%char → lstrip "@" (String c s) = String c s.
Proof. intros Hc. simpl. by destruct (decide (c = "@"%char)). Qed.

(** Stripping removes a run of [@] and nothing else, and what is left does
  not start with [@]. *)
Lemma lstrip_at_spec s :
∃ n, s = repeat_char "@" n +:+ lstrip "@" s
     ∧ ∀ rest, lstrip "@" s ≠ String "@" rest.
Proof.
induction s as [|c rest IH].
- exists 0. by split.
- destruct (decide (c = "@"%char)) as [->|Hc].
  + destruct IH as (n & Hn & Hhead). exists (S n).
    rewrite lstrip_at_head. split; [|done].
    simpl repeat_char. rewrite append_cons. by rewrite <- Hn.
  + exists 0. rewrite (lstrip_at_other _ _ Hc). split; [done|].
    intros rest' [= ->]. done.
Qed.

Lemma contains_middle pre needle post : contains needle (pre +:+ needle +:+ post).
Proof. by exists pre, post. Qed.

Lemma contains_end pre needle : contains needle (pre +:+ needle).
Proof.
exists pre, "". f_equal.
induction needle as [|c needle IH]; [done|].
rewrite append_cons. by rewrite <- IH.
Qed.

Lemma dict_get_set_eq {V} k (v : V) d : dict_get k (dict_set k v d) = Some v.
Proof.
induction d as [|[k' v'] d IH]; simpl.
- by rewrite decide_True.
- destruct (decide (k = k')) as [->|Hk]; simpl.
  + by rewrite decide_True.
  + by rewrite decide_False.
Qed.

Lemma nonempty_true {A} (l : list A) : l ≠ [] → nonempty l = true.
Proof. by destruct l. Qed.

Lemma dict_set_nonempty {V} k (v : V) d : nonempty (dict_set k v d) = true.
Proof. destruct d as [|[k' v'] d]; simpl; [done|]. by destruct (decide _). Qed.

(** ** The monad's elementary runs *)

Lemma bind_done {A B} (m : Flask A) (f : A → Flask B) w a w' :
m w = (Done a, w') → (m ≫= f) w = f a w'.
Proof. intros H. flask. by rewrite H. Qed.

Lemma bind_raised {A B} (m : Flask A) (f : A → Flask B) w e w' :
m w = (Raised e, w') → (m ≫= f) w = (Raised e, w').
Proof. intros H. flask. by rewrite H. Qed.

(** Flashing a list of messages one by one adds them in order and touches
  nothing else. *)
Lemma for_each_flash category (msgs : list string) w :
for_each msgs (λ m, flash m category) w
= (Done tt, add_flashes ((λ m, (m, category)) <$> msgs) w).
Proof.
revert w. induction msgs as [|m msgs IH]; intros w; simpl.
- flask. unfold add_flashes. rewrite app_nil_r. by destruct w.
- erewrite bind_done; [|reflexivity]. rewrite IH.
  unfold add_flash, add_flashes. simpl. by rewrite <- app_assoc.
Qed.

Lemma for_each_flash_all category (errs : list (list string)) w :
for_each errs (λ field_errors, for_each field_errors (λ m, flash m category)) w
= (Done tt, add_flashes ((λ m, (m, category)) <$> concat errs) w).
Proof.
revert w. induction errs as [|l errs IH]; intros w; simpl.
- flask. unfold add_flashes. rewrite app_nil_r. by destruct w.
- erewrite bind_done; [|apply for_each_flash]. rewrite IH.
  unfold add_flashes. simpl. by rewrite fmap_app, <- app_assoc.
Qed.

Lemma validate_on_submit_post {D} (form : Form D) w :
method (request w) = POST →
validate_on_submit form w
= (Done (negb (nonempty (validators form)),
         mkForm (data form) (validators form) (validators form)),
   add_validation w).
Proof. intros H. unfold validate_on_submit. flask. simpl. by rewrite H. Qed.

Lemma validate_on_submit_get {D} (form : Form D) w :
method (request w) = GET →
validate_on_submit form w = (Done (false, form), w).
Proof. intros H. unfold validate_on_submit. flask. simpl. by rewrite H. Qed.

(** *** [user_or_404] *)

Lemma user_or_404_found ipa username u w :
  user_show ipa username = Returns u →
  user_or_404 ipa username w = (Done u, add_call (call_user_show username) w).
Proof. intros H. unfold user_or_404, try_except. flask. simpl. by rewrite H. Qed.

Lemma user_or_404_raises ipa username cls message w :
  user_show ipa username = Raises cls message →
  user_or_404 ipa username w
  = (Raised (if issubclass cls NotFound then HTTPException 404
             else PyExc cls message),
     add_call (call_user_show username) w).
Proof.
  intros H. unfold user_or_404, try_except. flask. simpl. rewrite H. simpl.
  by destruct (issubclass cls NotFound).
Qed.

(** *** [with_ipa] *)

Lemma with_ipa_rejects {K} (f : Client → K → Flask Response) kwargs w :
  maybe_ipa_session (session w) = None →
  with_ipa f kwargs w
  = (Done (redirect url_root), add_flash "Please log in to continue." "warning" w).
Proof. intros H. unfold with_ipa. flask. simpl. by rewrite H. Qed.

Lemma with_ipa_admits {K} (f : Client → K → Flask Response) kwargs w ipa me others :
  maybe_ipa_session (session w) = Some ipa →
  user_find ipa = Returns (me :: others) →
  with_ipa f kwargs w
  = f ipa kwargs (put_g_current_user me (add_call call_user_find (put_g_ipa ipa w))).
Proof.
  intros H Hme. unfold with_ipa. flask. simpl. by rewrite H, Hme.
Qed.

Lemma with_ipa_lookup_fails {K} (f : Client → K → Flask Response) kwargs w ipa :
  maybe_ipa_session (session w) = Some ipa →
  (∀ me others, user_find ipa ≠ Returns (me :: others)) →
  ∃ e, with_ipa f kwargs w
       = (Raised e, add_call call_user_find (put_g_ipa ipa w)).
Proof.
  intros H Hme. unfold with_ipa. flask. simpl. rewrite H.
  destruct (user_find ipa) as [[|me others]|cls message]; simpl; eauto.
  by destruct (Hme me others).
Qed.

(** *** The self-only check at the head of every settings handler *)

Lemma settings_handler_denies r ipa username w :
  is_settings r = true →
  default PNone (session w !! "noggin_username") ≠ PStr username →
  handler r ipa username w
  = (Done (redirect (url_user (PStr username))),
     add_flash "You do not have permission to edit this account." "danger" w).
Proof.
  intros Hr Hne.
  destruct r; try discriminate; simpl;
    [ unfold user_settings_profile
    | unfold user_settings_keys
    | unfold user_settings_otp
    | unfold user_settings_otp_add ];
    flask; simpl; by rewrite decide_True.
Qed.

(** *** What a run added *)

Lemma issued_app w w' cs : calls w' = calls w ++ cs → issued w w' = cs.
Proof. intros H. unfold issued. rewrite H. apply drop_app_length. Qed.

Lemma issued_none w w' : calls w' = calls w → issued w w' = [].
Proof. intros H. apply issued_app. by rewrite app_nil_r. Qed.

Lemma flashed_app w w' fs : flashes w' = flashes w ++ fs → flashed w w' = fs.
Proof. intros H. unfold flashed. rewrite H. apply drop_app_length. Qed.

Lemma flashed_none w w' : flashes w' = flashes w → flashed w w' = [].
Proof. intros H. apply flashed_app. by rewrite app_nil_r. Qed.

Lemma written_app w w' es : logged w' = logged w ++ es → written w w' = es.
Proof. intros H. unfold written. rewrite H. apply drop_app_length. Qed.

Lemma written_none w w' : logged w' = logged w → written w w' = [].
Proof. intros H. apply written_app. by rewrite app_nil_r. Qed.

(** Read off what a fully evaluated run added to the world. *)
Ltac added :=
  first
    [ erewrite issued_app by (simpl; rewrite <- ?app_assoc; reflexivity)
    | erewrite issued_none by (simpl; reflexivity) ];
  try done.

(** *** Exhaustive case analysis of a handler run *)

Ltac handlers :=
  unfold handler, user, user_settings_profile, user_settings_keys,
    user_settings_otp, user_settings_otp_add, _user_mod, user_or_404,
    validate_on_submit, try_except in *.

(** Split a run into its paths: one per outcome of every test and of every
    backend call on the way. *)
Ltac paths :=
  repeat first
    [ progress (simpl in *)
    | rewrite for_each_flash_all
    | case_match; simplify_eq ].

(** On one path, the trace is the initial one followed by explicit calls. *)
Ltac trace_leaf :=
  eexists; split;
    [ first [ by rewrite app_nil_r | rewrite <- ?app_assoc; reflexivity ]
    | try done ].

(** No handler looks up the caller's identity itself. *)
Lemma handler_never_asks_whoami r ipa username w :
  ∃ cs, calls (handler r ipa username w).2 = calls w ++ cs
        ∧ filter is_user_find cs = [].
Proof. destruct r; handlers; flask; paths; trace_leaf. Qed.

(** Follow the one path the hypotheses select. *)
Ltac run :=
  repeat first
    [ progress simpl
    | match goal with H : _ = _ |- _ => rewrite H end
    | rewrite for_each_flash_all
    | rewrite decide_False by (intros ?; congruence)
    | rewrite decide_True by congruence ].

(** *** [_user_mod] by backend answer *)

Lemma _user_mod_accepted {D} ipa (form : Form D) username details w :
  user_mod ipa username details = Returns () →
  _user_mod ipa form username details w
  = (Done (Some (redirect (url_user (PStr username))), form),
     add_flash "Profile has been succesfully updated." "success"
       (add_call (call_user_mod username details) w)).
Proof. intros H. handlers. flask. by run. Qed.

Lemma _user_mod_bad_request {D} ipa (form : Form D) username details cls message w :
  user_mod ipa username details = Raises cls message →
  issubclass cls BadRequest = true →
  _user_mod ipa form username details w
  = (Done (None, set_error "non_field_errors" [message] form),
     (if decide (message = "no modifications to be performed") then id
      else add_log ERROR ("An error happened while editing user " +:+ username
                          +:+ ": " +:+ message))
       (add_call (call_user_mod username details) w)).
Proof. intros H Hcls. handlers. flask. run. by case_decide. Qed.

Lemma _user_mod_uncaught {D} ipa (form : Form D) username details cls message w :
  user_mod ipa username details = Raises cls message →
  issubclass cls BadRequest = false →
  _user_mod ipa form username details w
  = (Raised (PyExc cls message), add_call (call_user_mod username details) w).
Proof. intros H Hcls. handlers. flask. by run. Qed.

(** *** The settings handlers past the self-only check *)

(** A valid profile submission reaches [_user_mod] with the details built
    from the form. *)
Lemma profile_submission ipa username u w :
  default PNone (session w !! "noggin_username") = PStr username →
  user_show ipa username = Returns u →
  method (request w) = POST →
  bound_errors (UserSettingsProfileForm (request w) u) = [] →
  let d := bound_data (UserSettingsProfileForm (request w) u) in
  user_settings_profile ipa username w
  = ('(result, form) ← _user_mod ipa (mkForm d [] []) username (profile_details d);
     match result with
     | Some response => mret response
     | None => mret (render_template "user-settings-profile.html"
                       (page_settings_profile u form "profile"))
     end) (add_validation (add_call (call_user_show username) w)).
Proof. intros Hself Hu Hpost Hvalid d. handlers. flask. by run. Qed.

(** Whatever the backend answers, a valid profile submission issues the
    identity lookup and then one [user_mod] with those details. *)
Lemma profile_submission_calls ipa username u w :
  default PNone (session w !! "noggin_username") = PStr username →
  user_show ipa username = Returns u →
  method (request w) = POST →
  bound_errors (UserSettingsProfileForm (request w) u) = [] →
  let d := bound_data (UserSettingsProfileForm (request w) u) in
  issued w (user_settings_profile ipa username w).2
  = [call_user_show username; call_user_mod username (profile_details d)].
Proof.
  intros Hself Hu Hpost Hvalid d.
  rewrite (profile_submission ipa username u) by done. fold d.
  destruct (user_mod ipa username (profile_details d)) as [[]|cls message] eqn:Hmod.
  - erewrite bind_done by (by apply _user_mod_accepted). added.
  - destruct (issubclass cls BadRequest) eqn:Hcls.
    + erewrite bind_done by (by eapply _user_mod_bad_request).
      case_decide; added.
    + erewrite bind_raised by (by eapply _user_mod_uncaught). added.
Qed.

(** A profile or keys submission that fails validation is rendered again
    with the validators' errors, untouched otherwise. *)
Lemma profile_rejected ipa username u w :
  default PNone (session w !! "noggin_username") = PStr username →
  user_show ipa username = Returns u →
  method (request w) = POST →
  bound_errors (UserSettingsProfileForm (request w) u) ≠ [] →
  let b := UserSettingsProfileForm (request w) u in
  user_settings_profile ipa username w
  = (Done (render_template "user-settings-profile.html"
             (page_settings_profile u
                (mkForm (bound_data b) (bound_errors b) (bound_errors b)) "profile")),
     add_validation (add_call (call_user_show username) w)).
Proof.
  intros Hself Hu Hpost Hinvalid%nonempty_true b. handlers. flask. by run.
Qed.

Lemma keys_rejected ipa username u w :
  default PNone (session w !! "noggin_username") = PStr username →
  user_show ipa username = Returns u →
  method (request w) = POST →
  bound_errors (UserSettingsKeysForm (request w) u) ≠ [] →
  let b := UserSettingsKeysForm (request w) u in
  user_settings_keys ipa username w
  = (Done (render_template "user-settings-keys.html"
             (page_settings_keys u
                (mkForm (bound_data b) (bound_errors b) (bound_errors b)) "keys")),
     add_validation (add_call (call_user_show username) w)).
Proof.
  intros Hself Hu Hpost Hinvalid%nonempty_true b. handlers. flask. by run.
Qed.

(** *** The OTP handlers past the self-only check *)

Lemma otp_view ipa username u w :
  default PNone (session w !! "noggin_username") = PStr username →
  user_show ipa username = Returns u →
  user_settings_otp ipa username w
  = (tokens ← backend (call_otptoken_find username) (otptoken_find ipa username);
     mret (render_template "user-settings-otp.html"
             (page_settings_otp (instantiate (UserSettingsAddOTPForm (request w))) u
                "otp" tokens (default PNone (session w !! "otp_uri")))))
      (put_session "otp_uri" PNone (add_call (call_user_show username) w)).
Proof. intros Hself Hu. handlers. flask. by run. Qed.

Lemma otp_add_without_gpg_key ipa username u w :
  default PNone (session w !! "noggin_username") = PStr username →
  user_show ipa username = Returns u →
  gpgkeys u = [] →
  user_settings_otp_add ipa username w
  = (Done (redirect (url_user_settings_otp (PStr username))),
     add_flash "Cannot create an OTP token without a GPG Key. Please add a GPG Key"
       "info" (add_call (call_user_show username) w)).
Proof. intros Hself Hu Hkeys. handlers. flask. by run. Qed.

Lemma otp_add_rejected ipa username u w :
  default PNone (session w !! "noggin_username") = PStr username →
  user_show ipa username = Returns u →
  gpgkeys u ≠ [] →
  method (request w) = POST →
  bound_errors (UserSettingsAddOTPForm (request w)) ≠ [] →
  user_settings_otp_add ipa username w
  = (Done (redirect (url_user_settings_otp (PStr username))),
     add_flashes ((λ m, (m, "danger"))
                    <$> concat (dict_values (bound_errors
                                  (UserSettingsAddOTPForm (request w)))))
       (add_validation (add_call (call_user_show username) w))).
Proof.
  intros Hself Hu Hkeys%nonempty_true Hpost Hinvalid%nonempty_true.
  handlers. flask. by run.
Qed.

(** A valid OTP submission reaches [otptoken_add], owner re-read from the
    session. *)
Lemma otp_add_submission ipa username u w :
  default PNone (session w !! "noggin_username") = PStr username →
  user_show ipa username = Returns u →
  gpgkeys u ≠ [] →
  method (request w) = POST →
  bound_errors (UserSettingsAddOTPForm (request w)) = [] →
  let description := description (bound_data (UserSettingsAddOTPForm (request w))) in
  user_settings_otp_add ipa username w
  = (r ← try_except FreeIPAError
           (result ← backend (call_otptoken_add (PStr username) "sha512" description)
                             (otptoken_add ipa (PStr username) "sha512" description);
            uri ← getitem result "uri";
            session_set "otp_uri" uri);
     match r with
     | inl _ => mret ()
     | inr message =>
         flash "Cannot create the token." "danger";;
         logger_error ("An error happened while creating an OTP token for user "
                       +:+ username +:+ ": " +:+ message)
     end;;
     mret (redirect (url_user_settings_otp (PStr username))))
      (add_validation (add_call (call_user_show username) w)).
Proof.
  intros Hself Hu Hkeys%nonempty_true Hpost Hvalid description.
  handlers. flask. run. subst description.
  destruct (otptoken_add _ _ _ _) as [result|cls message]; simpl.
  - by destruct (dict_get "uri" result).
  - by destruct (issubclass cls FreeIPAError).
Qed.


Lemma otp_add_failed ipa username u w cls message :
  default PNone (session w !! "noggin_username") = PStr username →
  user_show ipa username = Returns u →
  gpgkeys u ≠ [] →
  method (request w) = POST →
  bound_errors (UserSettingsAddOTPForm (request w)) = [] →
  let description := description (bound_data (UserSettingsAddOTPForm (request w))) in
  otptoken_add ipa (PStr username) "sha512" description = Raises cls message →
  issubclass cls FreeIPAError = true →
  user_settings_otp_add ipa username w
  = (Done (redirect (url_user_settings_otp (PStr username))),
     add_log ERROR ("An error happened while creating an OTP token for user "
                    +:+ username +:+ ": " +:+ message)
       (add_flash "Cannot create the token." "danger"
          (add_call (call_otptoken_add (PStr username) "sha512" description)
             (add_validation (add_call (call_user_show username) w))))).
Proof.
  intros Hself Hu Hkeys Hpost Hvalid description Hadd Hcls.
  rewrite (otp_add_submission ipa username u) by done. fold description.
  unfold try_except. flask. by run.
Qed.

(** Whatever the backend answers, a valid OTP submission issues the identity
    lookup and then one [otptoken_add]. *)
Lemma otp_add_submission_calls ipa username u w :
  default PNone (session w !! "noggin_username") = PStr username →
  user_show ipa username = Returns u →
  gpgkeys u ≠ [] →
  method (request w) = POST →
  bound_errors (UserSettingsAddOTPForm (request w)) = [] →
  let description := description (bound_data (UserSettingsAddOTPForm (request w))) in
  issued w (user_settings_otp_add ipa username w).2
  = [call_user_show username; call_otptoken_add (PStr username) "sha512" description]
  ∧ validations (user_settings_otp_add ipa username w).2 = S (validations w).
Proof.
  intros Hself Hu Hkeys Hpost Hvalid description.
  rewrite (otp_add_submission ipa username u) by done. fold description.
  unfold try_except. flask. simpl.
  destruct (otptoken_add _ _ _ _) as [result|cls message]; simpl.
  - destruct (dict_get "uri" result); simpl; split; [added|done|added|done].
  - destruct (issubclass cls FreeIPAError); simpl; split; [added|done|added|done].
Qed.



(** A test on [form.errors] that contradicts what is known of them. *)
Ltac absurd_errors :=
  match goal with
  | Herr : ?l = [], H : nonempty ?l = true |- _ =>
      rewrite Herr in H; discriminate
  | Herr : ?l = [], H : negb (nonempty ?l) = false |- _ =>
      rewrite Herr in H; discriminate
  | Herr : ?l ≠ [], H : nonempty ?l = false |- _ =>
      destruct l; [congruence | discriminate]
  | Herr : ?l ≠ [], H : negb (nonempty ?l) = true |- _ =>
      destruct l; [congruence | discriminate]
  | Herr : [] ≠ [] |- _ => congruence
  end.

(** ** The claims *)

(** C1. A request to a settings handler (profile edit, keys edit, OTP view,
    OTP add) whose session [noggin_username] differs from the [username] of
    the path makes the handler issue no backend call at all, flash exactly
    one notification, ["You do not have permission to edit this account."]
    with category [danger], and answer with a redirect to the read view of
    [username].  Behind [with_ipa] the only call of the whole request is the
    caller lookup, and whatever the session holds no mutation is issued. *)
Theorem settings_identity_mismatch r ipa username w :
  is_settings r = true →
  default PNone (session w !! "noggin_username") ≠ PStr username →
  let denied := "You do not have permission to edit this account." in
  handler r ipa username w
    = (Done (redirect (url_user (PStr username))), add_flash denied "danger" w)
  ∧ issued w (handler r ipa username w).2 = []
  ∧ flashed w (handler r ipa username w).2 = [(denied, "danger")]
  ∧ filter is_mutation (issued w (serve r username w).2) = []
  ∧ ∀ me others,
      maybe_ipa_session (session w) = Some ipa →
      user_find ipa = Returns (me :: others) →
      (serve r username w).1 = Done (redirect (url_user (PStr username)))
      ∧ issued w (serve r username w).2 = [call_user_find]
      ∧ flashed w (serve r username w).2 = [(denied, "danger")].
Proof.
  intros Hr Hne denied.
  pose proof (settings_handler_denies r ipa username w Hr Hne) as Hrun.
  fold denied in Hrun. rewrite Hrun. simpl.
  split_and!; [done | by apply issued_none | by apply flashed_app | |].
  - unfold serve.
    destruct (maybe_ipa_session (session w)) as [ipa'|] eqn:Hs.
    + destruct (user_find ipa') as [[|me others]|cls message] eqn:Hme.
      * destruct (with_ipa_lookup_fails (handler r) username w ipa' Hs) as [e ->];
          [by rewrite Hme|].
        added.
      * rewrite (with_ipa_admits _ _ _ _ _ _ Hs Hme).
        rewrite settings_handler_denies by done.
        added.
      * destruct (with_ipa_lookup_fails (handler r) username w ipa' Hs) as [e ->];
          [by rewrite Hme|].
        added.
    + rewrite with_ipa_rejects by done. added.
  - intros me others Hs Hme. unfold serve.
    rewrite (with_ipa_admits _ _ _ _ _ _ Hs Hme).
    rewrite settings_handler_denies by done. simpl.
    split_and!; [done | added | by erewrite flashed_app].
Qed.

(** C2. Behind [with_ipa]: when the session yields no backend handle, the
    outcome is the same for every wrapped handler (it is not run), no
    backend call is issued, exactly one notification is flashed, ["Please
    log in to continue."] with category [warning], and the response is a
    redirect to the root; when it yields one and the caller lookup answers,
    the wrapped handler runs from a world in which that single lookup has
    been issued and [g.ipa] and [g.current_user] are set.  For every route
    of [user.py] an authenticated request issues the caller lookup exactly
    once. *)
Theorem with_ipa_contract {K} (f : Client → K → Flask Response) kwargs w :
  (maybe_ipa_session (session w) = None →
     with_ipa f kwargs w
       = (Done (redirect url_root),
          add_flash "Please log in to continue." "warning" w)
     ∧ issued w (with_ipa f kwargs w).2 = []
     ∧ flashed w (with_ipa f kwargs w).2
       = [("Please log in to continue.", "warning")])
  ∧ (∀ ipa me others,
       maybe_ipa_session (session w) = Some ipa →
       user_find ipa = Returns (me :: others) →
       let w1 := put_g_current_user me (add_call call_user_find (put_g_ipa ipa w)) in
       with_ipa f kwargs w = f ipa kwargs w1
       ∧ g_ipa w1 = Some ipa
       ∧ g_current_user w1 = Some me
       ∧ issued w w1 = [call_user_find])
  ∧ (∀ ipa r username,
       maybe_ipa_session (session w) = Some ipa →
       length (filter is_user_find (issued w (serve r username w).2)) = 1).
Proof.
  split_and!.
  - intros Hs. rewrite with_ipa_rejects by done. simpl.
    split_and!; [done | by apply issued_none | by apply flashed_app].
  - intros ipa me others Hs Hme w1.
    split_and!; [by eapply with_ipa_admits | done | done | by apply issued_app].
  - intros ipa r username Hs. unfold serve.
    destruct (user_find ipa) as [[|me others]|cls message] eqn:Hme.
    + destruct (with_ipa_lookup_fails (handler r) username w ipa Hs) as [e ->];
        [by rewrite Hme|].
      added.
    + rewrite (with_ipa_admits _ _ _ _ _ _ Hs Hme).
      destruct (handler_never_asks_whoami r ipa username
                  (put_g_current_user me (add_call call_user_find (put_g_ipa ipa w))))
        as (cs & Hcs & Hnone).
      erewrite issued_app; [|rewrite Hcs; simpl; by rewrite <- app_assoc].
      simpl. by rewrite Hnone.
    + destruct (with_ipa_lookup_fails (handler r) username w ipa Hs) as [e ->];
        [by rewrite Hme|].
      added.
Qed.

(** C5. A successful profile edit (authenticated, self-authorized, the form
    validates, the backend accepts) issues exactly one [user_mod] call for
    the whole request, after the caller and identity lookups; in it
    [full_name] and [display_name] both are the submitted first name, one
    space, the submitted last name.  The response is a redirect to the
    user's view with one [success] notification. *)
Theorem successful_profile_edit ipa me others username u w :
  maybe_ipa_session (session w) = Some ipa →
  user_find ipa = Returns (me :: others) →
  default PNone (session w !! "noggin_username") = PStr username →
  user_show ipa username = Returns u →
  method (request w) = POST →
  bound_errors (UserSettingsProfileForm (request w) u) = [] →
  let d := bound_data (UserSettingsProfileForm (request w) u) in
  user_mod ipa username (profile_details d) = Returns () →
  let run := serve settings_profile username w in
  run.1 = Done (redirect (url_user (PStr username)))
  ∧ issued w run.2
    = [call_user_find; call_user_show username;
       call_user_mod username (profile_details d)]
  ∧ length (filter is_user_mod (issued w run.2)) = 1
  ∧ dict_get "full_name" (profile_details d)
    = Some (OVal (PStr (firstname d +:+ " " +:+ lastname d)))
  ∧ dict_get "display_name" (profile_details d)
    = Some (OVal (PStr (firstname d +:+ " " +:+ lastname d)))
  ∧ flashed w run.2 = [("Profile has been succesfully updated.", "success")].
Proof.
  intros Hs Hme Hself Hu Hpost Hvalid d Hmod run.
  assert (run = (Done (redirect (url_user (PStr username))),
                 add_flash "Profile has been succesfully updated." "success"
                   (add_call (call_user_mod username (profile_details d))
                      (add_validation (add_call (call_user_show username)
                         (put_g_current_user me
                            (add_call call_user_find (put_g_ipa ipa w)))))))) as ->.
  { unfold run, serve. rewrite (with_ipa_admits _ _ _ _ _ _ Hs Hme). simpl.
    rewrite (profile_submission ipa username u) by done.
    by erewrite bind_done by (by apply _user_mod_accepted). }
  simpl. split_and!; [done | added | added | done | done | by erewrite flashed_app].
Qed.

(** C7. The GitHub and GitLab usernames sent to the backend by a profile
    edit are the submitted values stripped by [lstrip('@')]: every leading
    [@] is removed and nothing else, so ["@octocat"] and ["octocat"] both
    give ["octocat"], and stripping twice is stripping once. *)
Theorem forge_usernames_stripped ipa username u w :
  default PNone (session w !! "noggin_username") = PStr username →
  user_show ipa username = Returns u →
  method (request w) = POST →
  bound_errors (UserSettingsProfileForm (request w) u) = [] →
  let d := bound_data (UserSettingsProfileForm (request w) u) in
  (∃ details,
     issued w (user_settings_profile ipa username w).2
       = [call_user_show username; call_user_mod username details]
     ∧ dict_get "fasgithubusername" details = Some (OVal (PStr (lstrip "@" (github d))))
     ∧ dict_get "fasgitlabusername" details = Some (OVal (PStr (lstrip "@" (gitlab d)))))
  ∧ lstrip "@" "@octocat" = "octocat"
  ∧ lstrip "@" "octocat" = "octocat"
  ∧ (∀ s, lstrip "@" (lstrip "@" s) = lstrip "@" s)
  ∧ (∀ s, ∃ n, s = repeat_char "@" n +:+ lstrip "@" s
               ∧ ∀ rest, lstrip "@" s ≠ String "@" rest).
Proof.
  intros Hself Hu Hpost Hvalid d. split_and!.
  - exists (profile_details d). split_and!; [|done|done].
    by apply profile_submission_calls.
  - reflexivity.
  - reflexivity.
  - apply lstrip_idempotent.
  - apply lstrip_at_spec.
Qed.

(** C3 (amended). A [BadRequest] raised by [user_mod] in a profile or keys
    edit never flashes a notification: its message becomes the form's
    [non_field_errors], and an error-level log entry naming the user and the
    message is written exactly when the message is not ["no modifications to
    be performed"].  A [FreeIPAError] raised by [otptoken_add], whatever its
    message, flashes exactly one notification (["Cannot create the token."],
    [danger]) and writes exactly one error-level log entry naming the user
    and the message. *)
Theorem backend_error_feedback {D} ipa (form : Form D) username details cls message w :
  (user_mod ipa username details = Raises cls message →
   issubclass cls BadRequest = true →
   let run := _user_mod ipa form username details w in
   let entry := "An error happened while editing user " +:+ username
                +:+ ": " +:+ message in
   run.1 = Done (None, set_error "non_field_errors" [message] form)
   ∧ dict_get "non_field_errors" (errors (set_error "non_field_errors" [message] form))
     = Some [message]
   ∧ flashed w run.2 = []
   ∧ written w run.2
     = (if decide (message = "no modifications to be performed") then []
        else [(ERROR, entry)])
   ∧ contains username entry ∧ contains message entry)
  ∧ (∀ u,
       default PNone (session w !! "noggin_username") = PStr username →
       user_show ipa username = Returns u →
       gpgkeys u ≠ [] →
       method (request w) = POST →
       bound_errors (UserSettingsAddOTPForm (request w)) = [] →
       otptoken_add ipa (PStr username) "sha512"
         (description (bound_data (UserSettingsAddOTPForm (request w))))
       = Raises cls message →
       issubclass cls FreeIPAError = true →
       let run := user_settings_otp_add ipa username w in
       let entry := "An error happened while creating an OTP token for user "
                    +:+ username +:+ ": " +:+ message in
       run.1 = Done (redirect (url_user_settings_otp (PStr username)))
       ∧ flashed w run.2 = [("Cannot create the token.", "danger")]
       ∧ written w run.2 = [(ERROR, entry)]
       ∧ contains username entry ∧ contains message entry).
Proof.
  split.
  - intros Hmod Hcls run entry. subst run.
    rewrite (_user_mod_bad_request _ _ _ _ _ _ _ Hmod Hcls). simpl.
    split_and!.
    + done.
    + apply dict_get_set_eq.
    + case_decide; by apply flashed_none.
    + case_decide; [by apply written_none | by apply written_app].
    + apply contains_middle.
    + subst entry. rewrite <- !append_assoc. apply contains_end.
  - intros u Hself Hu Hkeys Hpost Hvalid Hadd Hcls run entry. subst run.
    rewrite (otp_add_failed ipa username u w cls message) by done. simpl.
    split_and!.
    + done.
    + by apply flashed_app.
    + by apply written_app.
    + apply contains_middle.
    + subst entry. rewrite <- !append_assoc. apply contains_end.
Qed.


(** C6 (amended). A POST to OTP-add by the session's own user whose record
    has no GPG key issues no backend call beyond the lookup of that record
    (in particular no mutation), does not run form validation, flashes one
    [info] notification and redirects to the OTP view.  With at least one
    GPG key, validation runs, and when it passes [otptoken_add] is called. *)
Theorem otp_add_requires_gpg_key ipa username u w :
  default PNone (session w !! "noggin_username") = PStr username →
  user_show ipa username = Returns u →
  method (request w) = POST →
  let run := user_settings_otp_add ipa username w in
  (gpgkeys u = [] →
     run.1 = Done (redirect (url_user_settings_otp (PStr username)))
     ∧ issued w run.2 = [call_user_show username]
     ∧ filter is_mutation (issued w run.2) = []
     ∧ validations run.2 = validations w
     ∧ flashed w run.2
       = [("Cannot create an OTP token without a GPG Key. Please add a GPG Key",
           "info")])
  ∧ (gpgkeys u ≠ [] →
     validations run.2 = S (validations w)
     ∧ (bound_errors (UserSettingsAddOTPForm (request w)) = [] →
        issued w run.2
        = [call_user_show username;
           call_otptoken_add (PStr username) "sha512"
             (description (bound_data (UserSettingsAddOTPForm (request w))))])).
Proof.
  intros Hself Hu Hpost run. split.
  - intros Hkeys. subst run.
    rewrite (otp_add_without_gpg_key ipa username u) by done. simpl.
    split_and!; [done | added | added | done | by apply flashed_app].
  - intros Hkeys. subst run.
    destruct (bound_errors (UserSettingsAddOTPForm (request w))) as [|e errs] eqn:Herrs.
    + destruct (otp_add_submission_calls ipa username u w) as [Hcalls Hval]; try done.
    + rewrite (otp_add_rejected ipa username u) by (done || by rewrite Herrs).
      simpl. split; [done|]. done.
Qed.

(** C8 (amended). A POST whose form fails validation issues no backend
    mutation.  For the profile and keys edits the form is rendered again
    carrying the validators' errors, nothing appended to it; for OTP-add
    each error is flashed with category [danger] and the response is a
    redirect to the OTP view. *)
Theorem failed_validation ipa username u w :
  default PNone (session w !! "noggin_username") = PStr username →
  user_show ipa username = Returns u →
  method (request w) = POST →
  (let b := UserSettingsProfileForm (request w) u in
   let run := user_settings_profile ipa username w in
   bound_errors b ≠ [] →
   run.1 = Done (render_template "user-settings-profile.html"
                   (page_settings_profile u
                      (mkForm (bound_data b) (bound_errors b) (bound_errors b))
                      "profile"))
   ∧ filter is_mutation (issued w run.2) = []
   ∧ flashed w run.2 = [])
  ∧ (let b := UserSettingsKeysForm (request w) u in
     let run := user_settings_keys ipa username w in
     bound_errors b ≠ [] →
     run.1 = Done (render_template "user-settings-keys.html"
                     (page_settings_keys u
                        (mkForm (bound_data b) (bound_errors b) (bound_errors b))
                        "keys"))
     ∧ filter is_mutation (issued w run.2) = []
     ∧ flashed w run.2 = [])
  ∧ (let b := UserSettingsAddOTPForm (request w) in
     let run := user_settings_otp_add ipa username w in
     gpgkeys u ≠ [] →
     bound_errors b ≠ [] →
     run.1 = Done (redirect (url_user_settings_otp (PStr username)))
     ∧ filter is_mutation (issued w run.2) = []
     ∧ flashed w run.2
       = (λ m, (m, "danger")) <$> concat (dict_values (bound_errors b))).
Proof.
  intros Hself Hu Hpost. split_and!.
  - intros b run Hinvalid. subst run.
    rewrite (profile_rejected ipa username u) by done. simpl.
    split_and!; [done | added | by apply flashed_none].
  - intros b run Hinvalid. subst run.
    rewrite (keys_rejected ipa username u) by done. simpl.
    split_and!; [done | added | by apply flashed_none].
  - intros b run Hkeys Hinvalid. subst run.
    rewrite (otp_add_rejected ipa username u) by done. simpl.
    split_and!; [done | added | by apply flashed_app].
Qed.

(** C9. Whenever the keys handler renders its form: if the form has no
    errors after processing, each of the two field lists is the bound one
    followed by exactly two empty entries; if it has errors, both lists are
    the bound ones, nothing appended.  A GET renders the padded form; a
    submission that fails validation or that the backend turns down with a
    [BadRequest] renders the unpadded one. *)
Theorem keys_form_padding ipa username w :
  (∀ template u form select,
     (user_settings_keys ipa username w).1
     = Done (render_template template (page_settings_keys u form select)) →
     let d := bound_data (UserSettingsKeysForm (request w) u) in
     (errors form = [] →
        gpgkeys_entries (data form) = gpgkeys_entries d ++ [PNone; PNone]
        ∧ sshpubkeys_entries (data form) = sshpubkeys_entries d ++ [PNone; PNone])
     ∧ (errors form ≠ [] → data form = d))
  ∧ (∀ u,
       default PNone (session w !! "noggin_username") = PStr username →
       user_show ipa username = Returns u →
       method (request w) = GET →
       let b := UserSettingsKeysForm (request w) u in
       (user_settings_keys ipa username w).1
       = Done (render_template "user-settings-keys.html"
                 (page_settings_keys u
                    (mkForm (mkKeysData (sshpubkeys_entries (bound_data b) ++ [PNone; PNone])
                                        (gpgkeys_entries (bound_data b) ++ [PNone; PNone]))
                            (bound_errors b) [])
                    "keys")))
  ∧ (∀ u cls message,
       default PNone (session w !! "noggin_username") = PStr username →
       user_show ipa username = Returns u →
       method (request w) = POST →
       let b := UserSettingsKeysForm (request w) u in
       bound_errors b = [] →
       user_mod ipa username (keys_details (bound_data b)) = Raises cls message →
       issubclass cls BadRequest = true →
       (user_settings_keys ipa username w).1
       = Done (render_template "user-settings-keys.html"
                 (page_settings_keys u
                    (mkForm (bound_data b) [] [("non_field_errors", [message])])
                    "keys"))).
Proof.
  split_and!.
  - intros template u form select Hrender d. subst d.
    handlers. flask. paths; simplify_eq; simpl.
    all: split; intros Herr; simpl in *.
    all: try (unfold append_entry; by rewrite <- !app_assoc).
    all: try done.
    all: try absurd_errors.
  - intros u Hself Hu Hget b. handlers. flask. run.
    unfold append_sshpubkeys, append_gpgkeys, append_entry, instantiate. simpl.
    by rewrite <- !app_assoc.
  - intros u cls message Hself Hu Hpost b Hvalid Hmod Hcls. subst b.
    handlers. flask. run. by case_decide.
Qed.

(** C10. Every [otptoken_add] call the add handler issues, on any path and
    for any submitted form, asks for algorithm ["sha512"] and names as owner
    the session's [noggin_username], which is the user of the path.  A valid
    submission for a user with a GPG key issues exactly that call after the
    identity lookup. *)
Theorem otp_token_parameters ipa username w :
  let run := user_settings_otp_add ipa username w in
  (∀ owner algorithm description,
     call_otptoken_add owner algorithm description ∈ issued w run.2 →
     algorithm = "sha512"
     ∧ owner = default PNone (session w !! "noggin_username")
     ∧ owner = PStr username)
  ∧ (∀ u,
       default PNone (session w !! "noggin_username") = PStr username →
       user_show ipa username = Returns u →
       gpgkeys u ≠ [] →
       method (request w) = POST →
       bound_errors (UserSettingsAddOTPForm (request w)) = [] →
       issued w run.2
       = [call_user_show username;
          call_otptoken_add (PStr username) "sha512"
            (description (bound_data (UserSettingsAddOTPForm (request w))))]).
Proof.
  intros run. split.
  - assert (∃ cs, calls run.2 = calls w ++ cs
                  ∧ ∀ owner algorithm description,
                      call_otptoken_add owner algorithm description ∈ cs →
                      algorithm = "sha512"
                      ∧ owner = default PNone (session w !! "noggin_username")
                      ∧ owner = PStr username) as (cs & Hcs & Hall).
    { subst run. handlers. flask. paths; trace_leaf.
      all: intros owner algorithm description Hin.
      all: repeat (apply elem_of_cons in Hin as [Hin|Hin]; simplify_eq).
      all: try (by apply elem_of_nil in Hin).
      all: split_and!; [done | done | by apply dec_stable]. }
    intros owner algorithm description Hin.
    apply (Hall owner algorithm description).
    by rewrite (issued_app _ _ _ Hcs) in Hin.
  - intros u Hself Hu Hkeys Hpost Hvalid. subst run.
    by destruct (otp_add_submission_calls ipa username u w) as [Hcalls _].
Qed.

(** ** Further properties of the gates and the handlers *)

(** *** What a handler leaves alone *)

(** A handler never touches the request or [g], writes the session at
    [otp_uri] only, and validates at most one form, none on a GET. *)
Lemma handler_frame r ipa username w :
  let w' := (handler r ipa username w).2 in
  request w' = request w
  ∧ g_ipa w' = g_ipa w
  ∧ g_current_user w' = g_current_user w
  ∧ (∀ key, key ≠ "otp_uri" → session w' !! key = session w !! key)
  ∧ (validations w' = validations w
     ∨ validations w' = S (validations w) ∧ method (request w) = POST).
Proof.
  intros w'. subst w'. destruct r; handlers; flask; paths.
  all: split_and!; try done.
  all: try (intros key Hkey; by rewrite lookup_insert_ne).
  all: try (by left).
  all: try (by right).
Qed.

(** *** What a handler asks of the backend *)

(** On every path a handler issues at most one mutation, none from the two
    read handlers and none on a GET; a [user_mod] it issues names the user
    of the path, who is the user of the session. *)
Lemma handler_mutations r ipa username w :
  ∃ cs, calls (handler r ipa username w).2 = calls w ++ cs
        ∧ length (filter is_mutation cs) ≤ 1
        ∧ (filter is_mutation cs ≠ [] →
           method (request w) = POST
           ∧ default PNone (session w !! "noggin_username") = PStr username
           ∧ r ≠ view_user ∧ r ≠ settings_otp)
        ∧ (∀ uid details, call_user_mod uid details ∈ cs → uid = username).
Proof.
  destruct r; handlers; flask; paths; trace_leaf.
  all: split_and!; [simpl; lia | simpl; intros Hmut | intros uid details Hin].
  all: try done.
  all: try (split_and!; [done | by apply dec_stable | done | done]).
  all: repeat (apply elem_of_cons in Hin as [Hin|Hin]; simplify_eq).
  all: try (by apply elem_of_nil in Hin).
  all: done.
Qed.

(** *** A whole request *)

(** A request is turned away, or stops at the caller lookup, or is the
    handler's run after that lookup. *)
Lemma serve_cases r username w :
  (maybe_ipa_session (session w) = None
   ∧ serve r username w
     = (Done (redirect url_root), add_flash "Please log in to continue." "warning" w))
  ∨ (∃ ipa e,
       maybe_ipa_session (session w) = Some ipa
       ∧ serve r username w = (Raised e, add_call call_user_find (put_g_ipa ipa w)))
  ∨ (∃ ipa me others,
       maybe_ipa_session (session w) = Some ipa
       ∧ user_find ipa = Returns (me :: others)
       ∧ serve r username w
         = handler r ipa username
             (put_g_current_user me (add_call call_user_find (put_g_ipa ipa w)))).
Proof.
  unfold serve. destruct (maybe_ipa_session (session w)) as [ipa|] eqn:Hs.
  - destruct (user_find ipa) as [[|me others]|cls message] eqn:Hme.
    + right; left. exists ipa.
      destruct (with_ipa_lookup_fails (handler r) username w ipa Hs) as [e He];
        [by rewrite Hme | by exists e].
    + right; right. exists ipa, me, others. split_and!; [done | done |].
      by apply (with_ipa_admits _ _ _ _ me others).
    + right; left. exists ipa.
      destruct (with_ipa_lookup_fails (handler r) username w ipa Hs) as [e He];
        [by rewrite Hme | by exists e].
  - left. split; [done|]. by apply with_ipa_rejects.
Qed.

Lemma serve_footprint r username w :
  let w' := (serve r username w).2 in
  request w' = request w
  ∧ (∀ key, key ≠ "otp_uri" → session w' !! key = session w !! key)
  ∧ (validations w' = validations w
     ∨ validations w' = S (validations w) ∧ method (request w) = POST)
  ∧ length (filter is_mutation (issued w w')) ≤ 1
  ∧ (filter is_mutation (issued w w') ≠ [] →
     method (request w) = POST
     ∧ default PNone (session w !! "noggin_username") = PStr username
     ∧ r ≠ view_user ∧ r ≠ settings_otp
     ∧ is_Some (maybe_ipa_session (session w)))
  ∧ (∀ uid details, call_user_mod uid details ∈ issued w w' → uid = username).
Proof.
  intros w'. subst w'.
  destruct (serve_cases r username w)
    as [[Hs ->]|[(ipa & e & Hs & ->)|(ipa & me & others & Hs & Hme & ->)]].
  - simpl. rewrite issued_none by done.
    split_and!; [done | done | by left | simpl; lia | done |].
    intros uid details Hin. by apply elem_of_nil in Hin.
  - simpl. erewrite issued_app by (simpl; reflexivity).
    split_and!; [done | done | by left | simpl; lia | done |].
    intros uid details Hin.
    apply elem_of_cons in Hin as [Hin|Hin]; [done | by apply elem_of_nil in Hin].
  - set (w1 := put_g_current_user me (add_call call_user_find (put_g_ipa ipa w))).
    destruct (handler_frame r ipa username w1) as (Hreq & _ & _ & Hsession & Hval).
    destruct (handler_mutations r ipa username w1) as (cs & Hcs & Hone & Hwhen & Hmod).
    erewrite issued_app; [|rewrite Hcs; simpl; by rewrite <- app_assoc].
    simpl. split_and!; try done.
    + intros Hmut. destruct (Hwhen Hmut) as (Hpost & Hself & Hr1 & Hr2).
      split_and!; done.
    + intros uid details Hin.
      apply elem_of_cons in Hin as [Hin|Hin]; [done | by eapply Hmod].
Qed.

(** ** Further properties *)

(** X1. No request changes who the session belongs to: after any route of
    [user.py] has been served, on any path, the session holds what it held
    at [noggin_username] and at every other key but [otp_uri] and
    [_flashes], where Flask keeps the flashed messages; the request itself
    is untouched. *)
Theorem request_writes_only_otp_uri r username w :
  let w' := (serve r username w).2 in
  session w' !! "noggin_username" = session w !! "noggin_username"
  ∧ delete "_flashes" (delete "otp_uri" (session w'))
    = delete "_flashes" (delete "otp_uri" (session w))
  ∧ request w' = request w.
Proof.
  intros w'. subst w'.
  destruct (serve_footprint r username w) as (Hreq & Hsession & _).
  split_and!; [by apply Hsession | | done].
  apply map_eq. intros key.
  destruct (decide (key = "_flashes")) as [->|Hflashes];
    [by rewrite !lookup_delete_eq|].
  rewrite !(lookup_delete_ne _ "_flashes") by done.
  destruct (decide (key = "otp_uri")) as [->|Hkey].
  - by rewrite !lookup_delete_eq.
  - rewrite !lookup_delete_ne by done. by apply Hsession.
Qed.

(** X2. A request issues at most one backend mutation and runs at most one
    form validation, on every path of every route. *)
Theorem request_mutates_at_most_once r username w :
  let w' := (serve r username w).2 in
  length (filter is_mutation (issued w w')) ≤ 1
  ∧ validations w ≤ validations w' ≤ S (validations w).
Proof.
  intros w'. subst w'.
  destruct (serve_footprint r username w) as (_ & _ & Hval & Hone & _).
  split; [done|]. destruct Hval as [Hval|[Hval _]]; rewrite Hval; lia.
Qed.

(** X3. A GET is safe: whatever the route, the session and the backend's
    answers, it issues no mutation and validates no form. *)
Theorem get_request_is_safe r username w :
  method (request w) = GET →
  let w' := (serve r username w).2 in
  filter is_mutation (issued w w') = [] ∧ validations w' = validations w.
Proof.
  intros Hget w'. subst w'.
  destruct (serve_footprint r username w) as (_ & _ & Hval & _ & Hwhen & _).
  split.
  - destruct (filter is_mutation (issued w (serve r username w).2)) eqn:Hmut; [done|].
    destruct Hwhen as (Hpost & _); [done | congruence].
  - destruct Hval as [?|[_ Hpost]]; [done | congruence].
Qed.

(** X4. The two read routes, the user view and the OTP view, never issue a
    mutation, whatever the method or the backend's answers. *)
Theorem read_routes_never_mutate r username w :
  r = view_user ∨ r = settings_otp →
  filter is_mutation (issued w (serve r username w).2) = [].
Proof.
  intros Hr.
  destruct (serve_footprint r username w) as (_ & _ & _ & _ & Hwhen & _).
  destruct (filter is_mutation (issued w (serve r username w).2)) eqn:Hmut; [done|].
  destruct Hwhen as (_ & _ & Hview & Hotp & _); [done|].
  by destruct Hr.
Qed.

(** X5. A mutation is only ever issued for an authenticated session acting
    on its own identity: if a request issues one, the session yields a
    backend handle and its [noggin_username] is the user of the path, and a
    [user_mod] names that user. *)
Theorem mutations_target_session_user r username w :
  let w' := (serve r username w).2 in
  (filter is_mutation (issued w w') ≠ [] →
   is_Some (maybe_ipa_session (session w))
   ∧ default PNone (session w !! "noggin_username") = PStr username)
  ∧ (∀ uid details, call_user_mod uid details ∈ issued w w' → uid = username).
Proof.
  intros w'. subst w'.
  destruct (serve_footprint r username w) as (_ & _ & _ & _ & Hwhen & Hmod).
  split; [|done]. intros Hmut. by destruct (Hwhen Hmut) as (_ & ? & _ & _ & ?).
Qed.

(** X6. The [require_self] decorator can be stacked and can take the place
    of the check the settings handlers carry: applied twice it is the gate
    applied once, and around a settings handler it changes nothing.  On a
    route without a [username] it aborts with 500 for every wrapped
    function, before looking at the session and without a notification. *)
Theorem require_self_stacks f kwargs w :
  require_self (require_self f) kwargs w = require_self f kwargs w
  ∧ (∀ r ipa username,
       is_settings r = true →
       kwargs !! "username" = Some username →
       require_self (λ _, handler r ipa username) kwargs w
       = handler r ipa username w)
  ∧ (kwargs !! "username" = None →
     require_self f kwargs w = (Raised (HTTPException 500), w)).
Proof.
  split_and!.
  - unfold require_self. destruct (kwargs !! "username") as [username|] eqn:Hk; [|done].
    flask. simpl. case_decide; [done|]. by rewrite decide_False by (intros ?; done).
  - intros r ipa username Hr Hk. unfold require_self. rewrite Hk. flask. simpl.
    case_decide as Hme; [|done].
    by rewrite settings_handler_denies.
  - intros Hk. unfold require_self. by rewrite Hk.
Qed.

(** X7. [user_or_404] issues exactly one [user_show] and answers with the
    record; a [NotFound] (or a subclass) becomes [abort(404)], any other
    exception of the backend leaves as it is. *)
Theorem user_or_404_contract ipa username w :
  issued w (user_or_404 ipa username w).2 = [call_user_show username]
  ∧ match user_show ipa username with
    | Returns u => (user_or_404 ipa username w).1 = Done u
    | Raises cls message =>
        (user_or_404 ipa username w).1
        = Raised (if issubclass cls NotFound then HTTPException 404
                  else PyExc cls message)
    end.
Proof.
  destruct (user_show ipa username) as [u|cls message] eqn:Hu.
  - rewrite (user_or_404_found _ _ _ _ Hu). simpl. split; [added | done].
  - rewrite (user_or_404_raises _ _ _ _ _ Hu). simpl. split; [added | done].
Qed.

(** X8. [group_or_404] issues exactly one [group_find] and answers with the
    first group found; an empty result becomes [abort(404)].  Unlike
    [user_or_404] it catches nothing: every exception of the backend,
    [NotFound] included, leaves as it is. *)
Theorem group_or_404_contract ipa groupname w :
  issued w (group_or_404 ipa groupname w).2 = [call_group_find "o_cn" groupname]
  ∧ match group_find ipa "o_cn" groupname with
    | Returns [] => (group_or_404 ipa groupname w).1 = Raised (HTTPException 404)
    | Returns (first :: _) => (group_or_404 ipa groupname w).1 = Done first
    | Raises cls message =>
        (group_or_404 ipa groupname w).1 = Raised (PyExc cls message)
    end.
Proof.
  unfold group_or_404. flask. simpl.
  destruct (group_find ipa "o_cn" groupname) as [[|first others]|cls message];
    simpl; (split; [added | done]).
Qed.

(** X9. The user view, for any session, looks the user up and then asks for
    the groups in two separate [group_find] calls, by membership and by
    management, and renders all three answers.  When the user is not found
    it aborts with 404 before any group lookup, and when the first group
    lookup raises the second is not issued. *)
Theorem user_view_two_lookups ipa username w :
  (∀ u groups managed_groups,
     user_show ipa username = Returns u →
     group_find ipa "user" username = Returns groups →
     group_find ipa "membermanager_user" username = Returns managed_groups →
     (user ipa username w).1
     = Done (render_template "user.html" (page_user u groups managed_groups))
     ∧ issued w (user ipa username w).2
       = [call_user_show username; call_group_find "user" username;
          call_group_find "membermanager_user" username]
     ∧ flashed w (user ipa username w).2 = [])
  ∧ (∀ cls message,
       user_show ipa username = Raises cls message →
       issubclass cls NotFound = true →
       user ipa username w
       = (Raised (HTTPException 404), add_call (call_user_show username) w))
  ∧ (∀ u cls message,
       user_show ipa username = Returns u →
       group_find ipa "user" username = Raises cls message →
       user ipa username w
       = (Raised (PyExc cls message),
          add_call (call_group_find "user" username)
            (add_call (call_user_show username) w))).
Proof.
  split_and!.
  - intros u groups managed_groups Hu Hg Hm. handlers. flask. run.
    split_and!; [done | added | by apply flashed_none].
  - intros cls message Hu Hcls. handlers. flask. by run.
  - intros u cls message Hu Hg. handlers. flask. by run.
Qed.

(** X10. When the session's own user is not found in the backend, every
    settings handler aborts with 404 right after the lookup: nothing is
    flashed, no form is validated, and the session, a pending [otp_uri]
    included, is left as it was. *)
Theorem settings_missing_user r ipa username cls message w :
  is_settings r = true →
  default PNone (session w !! "noggin_username") = PStr username →
  user_show ipa username = Raises cls message →
  issubclass cls NotFound = true →
  handler r ipa username w
  = (Raised (HTTPException 404), add_call (call_user_show username) w).
Proof.
  intros Hr Hself Hu Hcls. destruct r; try discriminate; handlers; flask; by run.
Qed.

(** X11. The OTP view clears [otp_uri] before it asks the backend for the
    tokens: when that lookup raises, the exception leaves the handler,
    nothing is rendered, and the provisioning URI the session held is gone
    without having been shown. *)
Theorem otp_view_token_lookup_fails ipa username u cls message w :
  default PNone (session w !! "noggin_username") = PStr username →
  user_show ipa username = Returns u →
  otptoken_find ipa username = Raises cls message →
  (user_settings_otp ipa username w).1 = Raised (PyExc cls message)
  ∧ session (user_settings_otp ipa username w).2 !! "otp_uri" = Some PNone
  ∧ issued w (user_settings_otp ipa username w).2
    = [call_user_show username; call_otptoken_find username].
Proof.
  intros Hself Hu Htokens. rewrite (otp_view ipa username u) by done.
  flask. run. split_and!; [done | apply lookup_insert_eq | added].
Qed.

(** X12. When [otptoken_add] answers without a [uri], the handler has
    created the token and then fails: the [KeyError] is not a
    [FreeIPAError], so it leaves the handler; nothing is flashed or logged
    and [otp_uri] is not written. *)
Theorem otp_add_answer_without_uri ipa username u result w :
  default PNone (session w !! "noggin_username") = PStr username →
  user_show ipa username = Returns u →
  gpgkeys u ≠ [] →
  method (request w) = POST →
  bound_errors (UserSettingsAddOTPForm (request w)) = [] →
  let description := description (bound_data (UserSettingsAddOTPForm (request w))) in
  otptoken_add ipa (PStr username) "sha512" description = Returns result →
  dict_get "uri" result = None →
  let run := user_settings_otp_add ipa username w in
  run.1 = Raised (PyExc KeyError "uri")
  ∧ issued w run.2
    = [call_user_show username; call_otptoken_add (PStr username) "sha512" description]
  ∧ session run.2 = session w
  ∧ flashed w run.2 = []
  ∧ written w run.2 = [].
Proof.
  intros Hself Hu Hkeys Hpost Hvalid description Hadd Huri run. subst run.
  rewrite (otp_add_submission ipa username u) by done. fold description.
  unfold try_except. flask. run.
  split_and!; [done | added | done | by apply flashed_none | by apply written_none].
Qed.

(** X13. An exception of [user_mod] that is not a [BadRequest], such as a
    bare [FreeIPAError], is not handled by the profile and keys edits: it
    leaves the handler after the call, with nothing flashed, nothing logged
    and no form rendered.  ([Unauthorized] and [NotFound] are [BadRequest]s
    and do not come under this.) *)
Theorem edit_uncaught_backend_error ipa username u cls message w :
  default PNone (session w !! "noggin_username") = PStr username →
  user_show ipa username = Returns u →
  method (request w) = POST →
  issubclass cls BadRequest = false →
  (let b := UserSettingsProfileForm (request w) u in
   bound_errors b = [] →
   user_mod ipa username (profile_details (bound_data b)) = Raises cls message →
   user_settings_profile ipa username w
   = (Raised (PyExc cls message),
      add_call (call_user_mod username (profile_details (bound_data b)))
        (add_validation (add_call (call_user_show username) w))))
  ∧ (let b := UserSettingsKeysForm (request w) u in
     bound_errors b = [] →
     user_mod ipa username (keys_details (bound_data b)) = Raises cls message →
     user_settings_keys ipa username w
     = (Raised (PyExc cls message),
        add_call (call_user_mod username (keys_details (bound_data b)))
          (add_validation (add_call (call_user_show username) w)))).
Proof.
  intros Hself Hu Hpost Hcls. split.
  - intros b Hvalid Hmod. subst b. handlers. flask. by run.
  - intros b Hvalid Hmod. subst b. handlers. flask. by run.
Qed.

(** X14. A profile edit the backend turns down with a [BadRequest] is
    answered by the form rendered again: the submitted data is kept, the
    backend's message is its only error, under [non_field_errors], and
    nothing is flashed. *)
Theorem profile_edit_turned_down ipa username u cls message w :
  default PNone (session w !! "noggin_username") = PStr username →
  user_show ipa username = Returns u →
  method (request w) = POST →
  let b := UserSettingsProfileForm (request w) u in
  bound_errors b = [] →
  user_mod ipa username (profile_details (bound_data b)) = Raises cls message →
  issubclass cls BadRequest = true →
  let run := user_settings_profile ipa username w in
  run.1 = Done (render_template "user-settings-profile.html"
                  (page_settings_profile u
                     (mkForm (bound_data b) [] [("non_field_errors", [message])])
                     "profile"))
  ∧ issued w run.2
    = [call_user_show username; call_user_mod username (profile_details (bound_data b))]
  ∧ flashed w run.2 = [].
Proof.
  intros Hself Hu Hpost b Hvalid Hmod Hcls run. subst run b.
  handlers. flask. run.
  case_decide; simpl; (split_and!; [done | added | by apply flashed_none]).
Qed.

(** X15. A GET of the profile form validates nothing and changes nothing:
    after the lookup of the user the form is rendered with the data bound
    from that user and no errors. *)
Theorem unsubmitted_profile_form ipa username u w :
  default PNone (session w !! "noggin_username") = PStr username →
  user_show ipa username = Returns u →
  method (request w) = GET →
  user_settings_profile ipa username w
  = (Done (render_template "user-settings-profile.html"
             (page_settings_profile u
                (instantiate (UserSettingsProfileForm (request w) u)) "profile")),
     add_call (call_user_show username) w).
Proof. intros Hself Hu Hget. handlers. flask. by run. Qed.

(** X16. A successful keys edit issues one [user_mod] whose [ipasshpubkey]
    and [fasgpgkeyid] are the entries of the two field lists as submitted,
    flashes the one [success] notification and redirects to the user's
    view. *)
Theorem successful_keys_edit ipa username u w :
  default PNone (session w !! "noggin_username") = PStr username →
  user_show ipa username = Returns u →
  method (request w) = POST →
  let b := UserSettingsKeysForm (request w) u in
  bound_errors b = [] →
  user_mod ipa username (keys_details (bound_data b)) = Returns () →
  let run := user_settings_keys ipa username w in
  run.1 = Done (redirect (url_user (PStr username)))
  ∧ issued w run.2
    = [call_user_show username;
       call_user_mod username
         [("ipasshpubkey", OList (sshpubkeys_entries (bound_data b)));
          ("fasgpgkeyid", OList (gpgkeys_entries (bound_data b)))]]
  ∧ flashed w run.2 = [("Profile has been succesfully updated.", "success")].
Proof.
  intros Hself Hu Hpost b Hvalid Hmod run. subst run b.
  handlers. flask. run.
  split_and!; [done | added | by apply flashed_app].
Qed.

(** X17. When the session yields a backend handle but the caller lookup
    fails, [with_ipa] lets the failure out and the wrapped handler does not
    run: an empty answer is an [IndexError], an exception of the backend
    leaves as it is.  By then [g.ipa] is set and [g.current_user] is not. *)
Theorem with_ipa_lookup_failure {K} (f : Client → K → Flask Response) kwargs ipa w :
  maybe_ipa_session (session w) = Some ipa →
  match user_find ipa with
  | Returns [] =>
      with_ipa f kwargs w
      = (Raised (PyExc IndexError "list index out of range"),
         add_call call_user_find (put_g_ipa ipa w))
  | Raises cls message =>
      with_ipa f kwargs w
      = (Raised (PyExc cls message), add_call call_user_find (put_g_ipa ipa w))
  | Returns (me :: _) =>
      with_ipa f kwargs w
      = f ipa kwargs (put_g_current_user me (add_call call_user_find (put_g_ipa ipa w)))
  end.
Proof.
  intros Hs. unfold with_ipa. flask. simpl. rewrite Hs.
  by destruct (user_find ipa) as [[|me others]|cls message].
Qed.

(** X18. OTP-add never renders a page: whenever it answers, on any path,
    the answer is a redirect, to the user's view when the session is not
    the user's and to the OTP view otherwise. *)
Theorem otp_add_always_redirects ipa username w response :
  (user_settings_otp_add ipa username w).1 = Done response →
  response
  = redirect (if decide (default PNone (session w !! "noggin_username") = PStr username)
              then url_user_settings_otp (PStr username)
              else url_user (PStr username)).
Proof.
  intros Hrun. handlers. flask. paths; simplify_eq.
  all: try done.
  all: congruence.
Qed.

(** X19. The handlers log sparingly: on every path a handler writes at most
    one log entry, and only when it has issued a mutation; what it then
    answers is never the redirect to the user's view, the answer of an edit
    that went through. *)
Theorem logs_only_failed_mutations r ipa username w :
  let run := handler r ipa username w in
  length (written w run.2) ≤ 1
  ∧ (written w run.2 ≠ [] →
     filter is_mutation (issued w run.2) ≠ []
     ∧ run.1 ≠ Done (redirect (url_user (PStr username)))).
Proof.
  intros run. subst run.
  assert (∃ es cs, logged (handler r ipa username w).2 = logged w ++ es
                   ∧ calls (handler r ipa username w).2 = calls w ++ cs
                   ∧ length es ≤ 1
                   ∧ (es ≠ [] →
                      filter is_mutation cs ≠ []
                      ∧ (handler r ipa username w).1
                        ≠ Done (redirect (url_user (PStr username)))))
    as (es & cs & Hes & Hcs & Hone & Hwhen).
  { destruct r; handlers; flask; paths.
    all: eexists; eexists.
    all: split_and!;
      [ first [ by rewrite app_nil_r | rewrite <- ?app_assoc; reflexivity ]
      | first [ by rewrite app_nil_r | rewrite <- ?app_assoc; reflexivity ]
      | simpl; lia
      | simpl; try done ].
    all: intros _; split; [simpl; done | discriminate]. }
  rewrite (written_app _ _ _ Hes), (issued_app _ _ _ Hcs). by split.
Qed.

End Noggin.

(** * The claims on the demonstration deployment *)

Local Abbreviation demo_handler :=
  (handler Demo.ProfileForm Demo.KeysForm Demo.AddOTPForm).
Local Abbreviation demo_serve ipa :=
  (serve (Demo.maybe_ipa_session ipa) Demo.ProfileForm Demo.KeysForm Demo.AddOTPForm).

(** C1 on a POST to the profile of [dummy] from the session of [other]. *)
Lemma settings_identity_mismatch_witness :
  let w := Demo.world Demo.profile_post (Demo.logged_in "other") in
  default PNone (session w !! "noggin_username") ≠ PStr "dummy"
  ∧ demo_handler settings_profile Demo.happy "dummy" w
    = (Done (redirect (url_user (PStr "dummy"))),
       add_flash "You do not have permission to edit this account." "danger" w)
  ∧ issued w (demo_serve Demo.happy settings_profile "dummy" w).2 = [call_user_find]
  ∧ flashed w (demo_serve Demo.happy settings_profile "dummy" w).2
    = [("You do not have permission to edit this account.", "danger")].
Proof.
  intros w.
  assert (default PNone (session w !! "noggin_username") ≠ PStr "dummy") as Hne
    by (vm_compute; discriminate).
  destruct (settings_identity_mismatch (Demo.maybe_ipa_session Demo.happy)
              Demo.ProfileForm Demo.KeysForm Demo.AddOTPForm
              settings_profile Demo.happy "dummy" w eq_refl Hne)
    as (Hrun & _ & _ & _ & Hroute).
  destruct (Hroute Demo.dummy [] ltac:(vm_compute; reflexivity) eq_refl)
    as (_ & Hcalls & Hflash).
  split_and!; [exact Hne | exact Hrun | exact Hcalls | exact Hflash].
Defined.

(** C2 on a session that is not logged in, and on one that is. *)
Lemma with_ipa_contract_witness :
  let anonymous := Demo.world Demo.get ∅ in
  let w := Demo.world Demo.get (Demo.logged_in "dummy") in
  Demo.maybe_ipa_session Demo.happy (session anonymous) = None
  ∧ demo_serve Demo.happy view_user "dummy" anonymous
    = (Done (redirect url_root),
       add_flash "Please log in to continue." "warning" anonymous)
  ∧ Demo.maybe_ipa_session Demo.happy (session w) = Some Demo.happy
  ∧ demo_serve Demo.happy view_user "dummy" w
    = demo_handler view_user Demo.happy "dummy"
        (put_g_current_user Demo.dummy
           (add_call call_user_find (put_g_ipa Demo.happy w)))
  ∧ length (filter is_user_find
              (issued w (demo_serve Demo.happy settings_otp "dummy" w).2)) = 1.
Proof.
  intros anonymous w.
  assert (Demo.maybe_ipa_session Demo.happy (session anonymous) = None) as Hnone
    by (vm_compute; reflexivity).
  assert (Demo.maybe_ipa_session Demo.happy (session w) = Some Demo.happy) as Hsome
    by (vm_compute; reflexivity).
  destruct (with_ipa_contract (Demo.maybe_ipa_session Demo.happy)
              Demo.ProfileForm Demo.KeysForm Demo.AddOTPForm
              (demo_handler view_user) "dummy" anonymous) as (Hreject & _ & _).
  destruct (with_ipa_contract (Demo.maybe_ipa_session Demo.happy)
              Demo.ProfileForm Demo.KeysForm Demo.AddOTPForm
              (demo_handler view_user) "dummy" w) as (_ & Hadmit & Honce).
  destruct (Hreject Hnone) as (Hrun & _ & _).
  destruct (Hadmit Demo.happy Demo.dummy [] Hsome eq_refl) as (Hruns & _ & _ & _).
  split_and!;
    [ exact Hnone | exact Hrun | exact Hsome | exact Hruns
    | exact (Honce Demo.happy settings_otp "dummy" Hsome) ].
Defined.

(** C5 on the scenario of the specification: [dummy] submits first name
    [Dummy] and last name [User]. *)
Lemma successful_profile_edit_witness :
  let w := Demo.world Demo.profile_post (Demo.logged_in "dummy") in
  let run := demo_serve Demo.happy settings_profile "dummy" w in
  bound_errors (Demo.ProfileForm (request w) Demo.dummy) = []
  ∧ run.1 = Done (redirect (url_user (PStr "dummy")))
  ∧ length (filter is_user_mod (issued w run.2)) = 1
  ∧ dict_get "full_name"
      (profile_details (bound_data (Demo.ProfileForm (request w) Demo.dummy)))
    = Some (OVal (PStr "Dummy User")).
Proof.
  intros w run.
  assert (bound_errors (Demo.ProfileForm (request w) Demo.dummy) = []) as Hvalid
    by (vm_compute; reflexivity).
  destruct (successful_profile_edit (Demo.maybe_ipa_session Demo.happy)
              Demo.ProfileForm Demo.KeysForm Demo.AddOTPForm
              Demo.happy Demo.dummy [] "dummy" Demo.dummy w
              ltac:(vm_compute; reflexivity) eq_refl
              ltac:(vm_compute; reflexivity) eq_refl eq_refl Hvalid eq_refl)
    as (Hrun & _ & Hone & Hfull & _).
  split_and!; [exact Hvalid | exact Hrun | exact Hone | exact Hfull].
Defined.

(** C7 on the same submission, whose GitHub name is [@octocat]. *)
Lemma forge_usernames_stripped_witness :
  let w := Demo.world Demo.profile_post (Demo.logged_in "dummy") in
  github (bound_data (Demo.ProfileForm (request w) Demo.dummy)) = "@octocat"
  ∧ ∃ details,
      issued w (user_settings_profile Demo.ProfileForm Demo.happy "dummy" w).2
        = [call_user_show "dummy"; call_user_mod "dummy" details]
      ∧ dict_get "fasgithubusername" details = Some (OVal (PStr "octocat"))
      ∧ dict_get "fasgitlabusername" details = Some (OVal (PStr "octocat")).
Proof.
  intros w. split; [vm_compute; reflexivity|].
  destruct (forge_usernames_stripped Demo.ProfileForm Demo.happy "dummy" Demo.dummy w
              ltac:(vm_compute; reflexivity) eq_refl eq_refl
              ltac:(vm_compute; reflexivity))
    as ((details & Hcalls & Hgithub & Hgitlab) & _).
  exists details. split_and!; [exact Hcalls | exact Hgithub | exact Hgitlab].
Defined.

(** C3 (amended) on a backend that turns the mutation down. *)
Lemma backend_error_feedback_witness :
  let message := "invalid 'mail': invalid e-mail format" in
  let ipa := Demo.refusing message in
  let w := Demo.world Demo.profile_post (Demo.logged_in "dummy") in
  let w' := Demo.world (Demo.post [("description", "phone")]) (Demo.logged_in "dummy") in
  let form := instantiate (Demo.ProfileForm (request w) Demo.dummy) in
  let edit := _user_mod ipa form "dummy" (profile_details (data form)) w in
  let add := user_settings_otp_add Demo.AddOTPForm ipa "dummy" w' in
  flashed w edit.2 = []
  ∧ written w edit.2
    = [(ERROR, "An error happened while editing user dummy: " +:+ message)]
  ∧ flashed w' add.2 = [("Cannot create the token.", "danger")]
  ∧ written w' add.2
    = [(ERROR, "An error happened while creating an OTP token for user dummy: "
               +:+ message)].
Proof.
  intros message ipa w w' form edit add.
  destruct (backend_error_feedback Demo.AddOTPForm ipa form "dummy"
              (profile_details (data form)) BadRequest message w)
    as (Hedit & _).
  destruct (backend_error_feedback Demo.AddOTPForm ipa form "dummy"
              (profile_details (data form)) BadRequest message w')
    as (_ & Hadd).
  destruct (Hedit eq_refl eq_refl) as (_ & _ & Hflash & Hlog & _).
  destruct (Hadd Demo.dummy ltac:(vm_compute; reflexivity) eq_refl
              ltac:(vm_compute; discriminate) eq_refl
              ltac:(vm_compute; reflexivity) eq_refl eq_refl)
    as (_ & Hflash' & Hlog' & _).
  split_and!; [exact Hflash | exact Hlog | exact Hflash' | exact Hlog'].
Defined.

(** C3 as stated fails both ways: a [BadRequest] with another message
    raised by the [user_mod] of a profile edit flashes nothing, and a
    ["no modifications to be performed"] raised by [otptoken_add] is
    flashed. *)
Lemma backend_error_feedback_counterexample :
  let other := "invalid 'mail': invalid e-mail format" in
  let benign := "no modifications to be performed" in
  let w := Demo.world Demo.profile_post (Demo.logged_in "dummy") in
  let w' := Demo.world (Demo.post [("description", "phone")]) (Demo.logged_in "dummy") in
  let edit := demo_serve (Demo.refusing other) settings_profile "dummy" w in
  let add := demo_serve (Demo.refusing benign) settings_otp_add "dummy" w' in
  other ≠ benign
  ∧ (∃ details, last (issued w edit.2) = Some (call_user_mod "dummy" details)
                ∧ user_mod (Demo.refusing other) "dummy" details
                  = Raises BadRequest other)
  ∧ length (flashed w edit.2) ≠ 1
  ∧ flashed w edit.2 = []
  ∧ last (issued w' add.2)
    = Some (call_otptoken_add (PStr "dummy") "sha512" "phone")
  ∧ otptoken_add (Demo.refusing benign) (PStr "dummy") "sha512" "phone"
    = Raises BadRequest benign
  ∧ flashed w' add.2 = [("Cannot create the token.", "danger")].
Proof.
  intros other benign w w' edit add.
  split_and!; try (vm_compute; reflexivity); try (vm_compute; discriminate).
  eexists. split; vm_compute; reflexivity.
Qed.



(** C6 (amended) on a user without a GPG key and on one with a key. *)
Lemma otp_add_requires_gpg_key_witness :
  let w := Demo.world (Demo.post [("description", "phone")]) (Demo.logged_in "dummy") in
  let refused := user_settings_otp_add Demo.AddOTPForm Demo.keyless "dummy" w in
  let allowed := user_settings_otp_add Demo.AddOTPForm Demo.happy "dummy" w in
  gpgkeys Demo.nokeys = []
  ∧ issued w refused.2 = [call_user_show "dummy"]
  ∧ validations refused.2 = 0
  ∧ gpgkeys Demo.dummy ≠ []
  ∧ validations allowed.2 = 1
  ∧ issued w allowed.2
    = [call_user_show "dummy"; call_otptoken_add (PStr "dummy") "sha512" "phone"].
Proof.
  intros w refused allowed.
  assert (gpgkeys Demo.dummy ≠ []) as Hkey by (vm_compute; discriminate).
  destruct (otp_add_requires_gpg_key Demo.AddOTPForm Demo.keyless "dummy" Demo.nokeys w
              ltac:(vm_compute; reflexivity) eq_refl eq_refl) as (Hrefused & _).
  destruct (otp_add_requires_gpg_key Demo.AddOTPForm Demo.happy "dummy" Demo.dummy w
              ltac:(vm_compute; reflexivity) eq_refl eq_refl) as (_ & Hallowed).
  destruct (Hrefused eq_refl) as (_ & Hcalls & _ & Hvalidations & _).
  destruct (Hallowed Hkey) as (Hran & Hadd).
  split_and!;
    [ reflexivity | exact Hcalls | exact Hvalidations | exact Hkey | exact Hran
    | exact (Hadd ltac:(vm_compute; reflexivity)) ].
Defined.

(** C6 as stated fails: refusing a user without a GPG key takes a backend
    call, the lookup of that user's record. *)
Lemma otp_add_requires_gpg_key_counterexample :
  let w := Demo.world (Demo.post [("description", "phone")]) (Demo.logged_in "dummy") in
  let run := user_settings_otp_add Demo.AddOTPForm Demo.keyless "dummy" w in
  default PNone (session w !! "noggin_username") = PStr "dummy"
  ∧ user_show Demo.keyless "dummy" = Returns Demo.nokeys
  ∧ gpgkeys Demo.nokeys = []
  ∧ calls w = []
  ∧ calls run.2 = [call_user_show "dummy"]
  ∧ issued w run.2 ≠ [].
Proof.
  intros w run.
  split_and!; try (vm_compute; reflexivity); vm_compute; discriminate.
Qed.

(** C8 (amended) on submissions that leave the required fields empty. *)
Lemma failed_validation_witness :
  let w := Demo.world (Demo.post []) (Demo.logged_in "dummy") in
  let profile := user_settings_profile Demo.ProfileForm Demo.happy "dummy" w in
  let keys := user_settings_keys Demo.KeysForm Demo.happy "dummy" w in
  let add := user_settings_otp_add Demo.AddOTPForm Demo.happy "dummy" w in
  bound_errors (Demo.ProfileForm (request w) Demo.dummy) ≠ []
  ∧ filter is_mutation (issued w profile.2) = []
  ∧ filter is_mutation (issued w keys.2) = []
  ∧ filter is_mutation (issued w add.2) = []
  ∧ add.1 = Done (redirect (url_user_settings_otp (PStr "dummy")))
  ∧ flashed w add.2 = [("This field is required.", "danger")].
Proof.
  intros w profile keys add.
  assert (bound_errors (Demo.ProfileForm (request w) Demo.dummy) ≠ []) as Hprofile
    by (vm_compute; discriminate).
  destruct (failed_validation Demo.ProfileForm Demo.KeysForm Demo.AddOTPForm
              Demo.happy "dummy" Demo.dummy w
              ltac:(vm_compute; reflexivity) eq_refl eq_refl)
    as (Hp & Hk & Ha).
  destruct (Hp Hprofile) as (_ & Hpm & _).
  destruct (Hk ltac:(vm_compute; discriminate)) as (_ & Hkm & _).
  destruct (Ha ltac:(vm_compute; discriminate) ltac:(vm_compute; discriminate))
    as (Hredirect & Ham & Hflash).
  split_and!;
    [ exact Hprofile | exact Hpm | exact Hkm | exact Ham | exact Hredirect
    | exact Hflash ].
Defined.

(** C8 as stated fails for OTP-add: a submission that fails validation is
    answered with a redirect, the form is not rendered again. *)
Lemma failed_validation_counterexample :
  let w := Demo.world (Demo.post []) (Demo.logged_in "dummy") in
  let run := demo_serve Demo.happy settings_otp_add "dummy" w in
  request w = mkRequest POST []
  ∧ bound_errors (Demo.AddOTPForm (request w))
    = [("description", ["This field is required."])]
  ∧ validations run.2 = 1
  ∧ run.1 = Done (redirect (url_user_settings_otp (PStr "dummy")))
  ∧ ∀ template page, run.1 ≠ Done (render_template template page).
Proof.
  intros w run.
  split_and!; try (vm_compute; reflexivity).
  intros template page. vm_compute. discriminate.
Qed.

(** C9 on a GET of the keys form, padded, and on an empty submission, not
    padded. *)
Lemma keys_form_padding_witness :
  let w := Demo.world Demo.get (Demo.logged_in "dummy") in
  let w' := Demo.world (Demo.post []) (Demo.logged_in "dummy") in
  let padded :=
    mkForm (mkKeysData [PNone; PNone] [PStr "dummygpgkeyid"; PNone; PNone]) [] [] in
  let rejected :=
    mkForm (mkKeysData [PStr ""] [PStr ""])
      [("gpgkeys-0", ["This field is required."])]
      [("gpgkeys-0", ["This field is required."])] in
  (user_settings_keys Demo.KeysForm Demo.happy "dummy" w).1
  = Done (render_template "user-settings-keys.html"
            (page_settings_keys Demo.dummy padded "keys"))
  ∧ gpgkeys_entries (data padded)
    = gpgkeys_entries (bound_data (Demo.KeysForm (request w) Demo.dummy))
      ++ [PNone; PNone]
  ∧ (user_settings_keys Demo.KeysForm Demo.happy "dummy" w').1
    = Done (render_template "user-settings-keys.html"
              (page_settings_keys Demo.dummy rejected "keys"))
  ∧ data rejected = bound_data (Demo.KeysForm (request w') Demo.dummy).
Proof.
  intros w w' padded rejected.
  assert ((user_settings_keys Demo.KeysForm Demo.happy "dummy" w).1
          = Done (render_template "user-settings-keys.html"
                    (page_settings_keys Demo.dummy padded "keys"))) as Hget
    by (vm_compute; reflexivity).
  assert ((user_settings_keys Demo.KeysForm Demo.happy "dummy" w').1
          = Done (render_template "user-settings-keys.html"
                    (page_settings_keys Demo.dummy rejected "keys"))) as Hpost
    by (vm_compute; reflexivity).
  destruct (keys_form_padding Demo.KeysForm Demo.happy "dummy" w) as (Hany & _ & _).
  destruct (keys_form_padding Demo.KeysForm Demo.happy "dummy" w') as (Hany' & _ & _).
  destruct (Hany _ _ _ _ Hget) as (Hpadded & _).
  destruct (Hany' _ _ _ _ Hpost) as (_ & Hsame).
  destruct (Hpadded eq_refl) as (Hgpg & _).
  split_and!;
    [ exact Hget | exact Hgpg | exact Hpost
    | exact (Hsame ltac:(vm_compute; discriminate)) ].
Defined.

(** C10 on a token added by [dummy]. *)
Lemma otp_token_parameters_witness :
  let w := Demo.world (Demo.post [("description", "phone")]) (Demo.logged_in "dummy") in
  let run := user_settings_otp_add Demo.AddOTPForm Demo.happy "dummy" w in
  call_otptoken_add (PStr "dummy") "sha512" "phone" ∈ issued w run.2
  ∧ issued w run.2
    = [call_user_show "dummy"; call_otptoken_add (PStr "dummy") "sha512" "phone"]
  ∧ default PNone (session w !! "noggin_username") = PStr "dummy".
Proof.
  intros w run.
  destruct (otp_token_parameters Demo.AddOTPForm Demo.happy "dummy" w)
    as (Hall & Hissued).
  pose proof (Hissued Demo.dummy ltac:(vm_compute; reflexivity) eq_refl
                ltac:(vm_compute; discriminate) eq_refl
                ltac:(vm_compute; reflexivity)) as Hcalls.
  assert (call_otptoken_add (PStr "dummy") "sha512" "phone" ∈ issued w run.2) as Hin.
  { unfold run. rewrite Hcalls. apply list_elem_of_further, list_elem_of_here. }
  destruct (Hall _ _ _ Hin) as (_ & Howner & _).
  split_and!; [exact Hin | exact Hcalls | symmetry; exact Howner].
Defined.

(** * The further properties on the demonstration deployment *)

(** X3 on a GET of the profile form. *)
Lemma get_request_is_safe_witness :
  let w := Demo.world Demo.get (Demo.logged_in "dummy") in
  let w' := (demo_serve Demo.happy settings_profile "dummy" w).2 in
  method (request w) = GET
  ∧ filter is_mutation (issued w w') = []
  ∧ validations w' = validations w.
Proof.
  intros w w'.
  destruct (get_request_is_safe (Demo.maybe_ipa_session Demo.happy)
              Demo.ProfileForm Demo.KeysForm Demo.AddOTPForm
              settings_profile "dummy" w eq_refl) as (Hmut & Hval).
  split_and!; [reflexivity | exact Hmut | exact Hval].
Defined.

(** X4 on a POST to the OTP view. *)
Lemma read_routes_never_mutate_witness :
  let w := Demo.world (Demo.post [("description", "phone")]) (Demo.logged_in "dummy") in
  filter is_mutation (issued w (demo_serve Demo.happy settings_otp "dummy" w).2) = [].
Proof.
  intros w.
  exact (read_routes_never_mutate (Demo.maybe_ipa_session Demo.happy)
           Demo.ProfileForm Demo.KeysForm Demo.AddOTPForm
           settings_otp "dummy" w (or_intror eq_refl)).
Defined.

(** X5 on the profile edit of the specification's scenario. *)
Lemma mutations_target_session_user_witness :
  let w := Demo.world Demo.profile_post (Demo.logged_in "dummy") in
  let w' := (demo_serve Demo.happy settings_profile "dummy" w).2 in
  filter is_mutation (issued w w') ≠ []
  ∧ is_Some (Demo.maybe_ipa_session Demo.happy (session w))
  ∧ default PNone (session w !! "noggin_username") = PStr "dummy".
Proof.
  intros w w'.
  assert (filter is_mutation (issued w w') ≠ []) as Hmut
    by (vm_compute; discriminate).
  destruct (mutations_target_session_user (Demo.maybe_ipa_session Demo.happy)
              Demo.ProfileForm Demo.KeysForm Demo.AddOTPForm
              settings_profile "dummy" w) as (Hwhen & _).
  destruct (Hwhen Hmut) as (Hhandle & Hself).
  split_and!; [exact Hmut | exact Hhandle | exact Hself].
Defined.

(** X6 around the profile handler, and on a route without a user. *)
Lemma require_self_stacks_witness :
  let w := Demo.world Demo.profile_post (Demo.logged_in "dummy") in
  let kwargs : gmap string string := {["username" := "dummy"]} in
  let f : gmap string string → Flask Response :=
    λ _, demo_handler settings_profile Demo.happy "dummy" in
  require_self f kwargs w = demo_handler settings_profile Demo.happy "dummy" w
  ∧ require_self f ∅ w = (Raised (HTTPException 500), w).
Proof.
  intros w kwargs f.
  destruct (require_self_stacks Demo.ProfileForm Demo.KeysForm Demo.AddOTPForm
              f kwargs w) as (_ & Hsame & _).
  destruct (require_self_stacks Demo.ProfileForm Demo.KeysForm Demo.AddOTPForm
              f ∅ w) as (_ & _ & Hmissing).
  split.
  - exact (Hsame settings_profile Demo.happy "dummy" eq_refl
             ltac:(vm_compute; reflexivity)).
  - exact (Hmissing ltac:(vm_compute; reflexivity)).
Defined.

(** X9 on a user with groups, and on one the backend does not know. *)
Lemma user_view_two_lookups_witness :
  let w := Demo.world Demo.get (Demo.logged_in "other") in
  (user Demo.grouped "dummy" w).1
  = Done (render_template "user.html"
            (page_user Demo.dummy [mkGroup "dummy-group"; mkGroup "other-group"]
               [mkGroup "dummy-managers"]))
  ∧ user Demo.grouped "ghost" w
    = (Raised (HTTPException 404), add_call (call_user_show "ghost") w).
Proof.
  intros w.
  destruct (user_view_two_lookups Demo.grouped "dummy" w) as (Hfound & _ & _).
  destruct (user_view_two_lookups Demo.grouped "ghost" w) as (_ & Hmissing & _).
  destruct (Hfound Demo.dummy _ _ eq_refl eq_refl eq_refl) as (Hrender & _ & _).
  split.
  - exact Hrender.
  - exact (Hmissing NotFound _ eq_refl eq_refl).
Defined.

(** X10 on the OTP view of a session whose user has been deleted. *)
Lemma settings_missing_user_witness :
  let s := <["otp_uri" := PStr "otpauth://totp/ghost"]> (Demo.logged_in "ghost") in
  let w := Demo.world Demo.get s in
  let run := demo_handler settings_otp Demo.happy "ghost" w in
  run.1 = Raised (HTTPException 404)
  ∧ session run.2 !! "otp_uri" = Some (PStr "otpauth://totp/ghost").
Proof.
  intros s w run. unfold run.
  rewrite (settings_missing_user Demo.ProfileForm Demo.KeysForm Demo.AddOTPForm
             settings_otp Demo.happy "ghost" NotFound "ghost: user not found" w
             eq_refl ltac:(vm_compute; reflexivity) eq_refl eq_refl).
  split; [reflexivity | vm_compute; reflexivity].
Defined.

(** X11 on a session that holds a provisioning URI. *)
Lemma otp_view_token_lookup_fails_witness :
  let s := <["otp_uri" := PStr "otpauth://totp/dummy"]> (Demo.logged_in "dummy") in
  let w := Demo.world Demo.get s in
  let run := user_settings_otp Demo.AddOTPForm (Demo.tokenless "down") "dummy" w in
  session w !! "otp_uri" = Some (PStr "otpauth://totp/dummy")
  ∧ run.1 = Raised (PyExc FreeIPAError "down")
  ∧ session run.2 !! "otp_uri" = Some PNone.
Proof.
  intros s w run.
  destruct (otp_view_token_lookup_fails Demo.AddOTPForm (Demo.tokenless "down")
              "dummy" Demo.dummy FreeIPAError "down" w
              ltac:(vm_compute; reflexivity) eq_refl eq_refl)
    as (Hraised & Hcleared & _).
  split_and!; [vm_compute; reflexivity | exact Hraised | exact Hcleared].
Defined.

(** X12 on a backend whose answer has no [uri]. *)
Lemma otp_add_answer_without_uri_witness :
  let w := Demo.world (Demo.post [("description", "phone")]) (Demo.logged_in "dummy") in
  let run := user_settings_otp_add Demo.AddOTPForm Demo.mute "dummy" w in
  run.1 = Raised (PyExc KeyError "uri")
  ∧ issued w run.2
    = [call_user_show "dummy"; call_otptoken_add (PStr "dummy") "sha512" "phone"]
  ∧ session run.2 = session w.
Proof.
  intros w run.
  destruct (otp_add_answer_without_uri Demo.AddOTPForm Demo.mute "dummy" Demo.dummy
              [] w ltac:(vm_compute; reflexivity) eq_refl
              ltac:(vm_compute; discriminate) eq_refl
              ltac:(vm_compute; reflexivity) eq_refl eq_refl)
    as (Hraised & Hcalls & Hsession & _).
  split_and!; [exact Hraised | exact Hcalls | exact Hsession].
Defined.

(** X13 on a backend that fails with a bare [FreeIPAError]. *)
Lemma edit_uncaught_backend_error_witness :
  let w := Demo.world Demo.profile_post (Demo.logged_in "dummy") in
  let run := user_settings_profile Demo.ProfileForm (Demo.failing "down") "dummy" w in
  issubclass FreeIPAError BadRequest = false
  ∧ run.1 = Raised (PyExc FreeIPAError "down")
  ∧ flashes run.2 = []
  ∧ logged run.2 = [].
Proof.
  intros w run.
  destruct (edit_uncaught_backend_error Demo.ProfileForm Demo.KeysForm
              (Demo.failing "down") "dummy" Demo.dummy FreeIPAError "down" w
              ltac:(vm_compute; reflexivity) eq_refl eq_refl eq_refl)
    as (Hprofile & _).
  unfold run. rewrite (Hprofile ltac:(vm_compute; reflexivity) eq_refl).
  split_and!; reflexivity.
Defined.

(** X14 on an edit that changes nothing. *)
Lemma profile_edit_turned_down_witness :
  let message := "no modifications to be performed" in
  let w := Demo.world Demo.profile_post (Demo.logged_in "dummy") in
  let run := user_settings_profile Demo.ProfileForm (Demo.refusing message) "dummy" w in
  run.1 = Done (render_template "user-settings-profile.html"
                  (page_settings_profile Demo.dummy
                     (mkForm (bound_data (Demo.ProfileForm (request w) Demo.dummy))
                        [] [("non_field_errors", [message])])
                     "profile"))
  ∧ flashed w run.2 = [].
Proof.
  intros message w run.
  destruct (profile_edit_turned_down Demo.ProfileForm (Demo.refusing message)
              "dummy" Demo.dummy BadRequest message w
              ltac:(vm_compute; reflexivity) eq_refl eq_refl
              ltac:(vm_compute; reflexivity) eq_refl eq_refl)
    as (Hrender & _ & Hflash).
  split; [exact Hrender | exact Hflash].
Defined.

(** X15 on a GET by [dummy]. *)
Lemma unsubmitted_profile_form_witness :
  let w := Demo.world Demo.get (Demo.logged_in "dummy") in
  user_settings_profile Demo.ProfileForm Demo.happy "dummy" w
  = (Done (render_template "user-settings-profile.html"
             (page_settings_profile Demo.dummy
                (instantiate (Demo.ProfileForm (request w) Demo.dummy)) "profile")),
     add_call (call_user_show "dummy") w).
Proof.
  intros w.
  exact (unsubmitted_profile_form Demo.ProfileForm Demo.happy "dummy" Demo.dummy w
           ltac:(vm_compute; reflexivity) eq_refl eq_refl).
Defined.

(** X16 on a submission of one key of each kind. *)
Lemma successful_keys_edit_witness :
  let w := Demo.world (Demo.post [("sshpubkeys-0", "ssh-ed25519 AAAA");
                                  ("gpgkeys-0", "dummygpgkeyid")])
             (Demo.logged_in "dummy") in
  let run := user_settings_keys Demo.KeysForm Demo.happy "dummy" w in
  run.1 = Done (redirect (url_user (PStr "dummy")))
  ∧ issued w run.2
    = [call_user_show "dummy";
       call_user_mod "dummy"
         [("ipasshpubkey", OList [PStr "ssh-ed25519 AAAA"]);
          ("fasgpgkeyid", OList [PStr "dummygpgkeyid"])]].
Proof.
  intros w run.
  destruct (successful_keys_edit Demo.KeysForm Demo.happy "dummy" Demo.dummy w
              ltac:(vm_compute; reflexivity) eq_refl eq_refl
              ltac:(vm_compute; reflexivity) eq_refl)
    as (Hredirect & Hcalls & _).
  split; [exact Hredirect | exact Hcalls].
Defined.

(** X17 on a backend whose caller lookup comes back empty. *)
Lemma with_ipa_lookup_failure_witness :
  let w := Demo.world Demo.get (Demo.logged_in "dummy") in
  with_ipa (Demo.maybe_ipa_session Demo.nobody) (demo_handler view_user) "dummy" w
  = (Raised (PyExc IndexError "list index out of range"),
     add_call call_user_find (put_g_ipa Demo.nobody w)).
Proof.
  intros w.
  exact (with_ipa_lookup_failure (Demo.maybe_ipa_session Demo.nobody)
           (demo_handler view_user) "dummy" Demo.nobody w
           ltac:(vm_compute; reflexivity)).
Defined.

(** X18 on a submission that fails validation. *)
Lemma otp_add_always_redirects_witness :
  let w := Demo.world (Demo.post []) (Demo.logged_in "dummy") in
  let answer := redirect (url_user_settings_otp (PStr "dummy")) in
  (user_settings_otp_add Demo.AddOTPForm Demo.happy "dummy" w).1 = Done answer
  ∧ answer
    = redirect (if decide (default PNone (session w !! "noggin_username")
                           = PStr "dummy")
                then url_user_settings_otp (PStr "dummy")
                else url_user (PStr "dummy")).
Proof.
  intros w answer.
  assert ((user_settings_otp_add Demo.AddOTPForm Demo.happy "dummy" w).1
          = Done answer) as Hrun by (vm_compute; reflexivity).
  split; [exact Hrun|].
  exact (otp_add_always_redirects Demo.AddOTPForm Demo.happy "dummy" w answer Hrun).
Defined.

(** X19 on a profile edit the backend turns down. *)
Lemma logs_only_failed_mutations_witness :
  let w := Demo.world Demo.profile_post (Demo.logged_in "dummy") in
  let run := demo_handler settings_profile (Demo.refusing "invalid 'mail'") "dummy" w in
  written w run.2
  = [(ERROR, "An error happened while editing user dummy: invalid 'mail'")]
  ∧ filter is_mutation (issued w run.2) ≠ []
  ∧ run.1 ≠ Done (redirect (url_user (PStr "dummy"))).
Proof.
  intros w run.
  assert (written w run.2
          = [(ERROR, "An error happened while editing user dummy: invalid 'mail'")])
    as Hlog by (vm_compute; reflexivity).
  destruct (logs_only_failed_mutations Demo.ProfileForm Demo.KeysForm Demo.AddOTPForm
              settings_profile (Demo.refusing "invalid 'mail'") "dummy" w)
    as (_ & Hwhen).
  assert (written w run.2 ≠ []) as Hsome by (rewrite Hlog; discriminate).
  destruct (Hwhen Hsome) as (Hmut & Hresp).
  split_and!; [exact Hlog | exact Hmut | exact Hresp].
Defined.
